(** * Azure decorators of go-autorest (package [azure], file [azure.go])

    A shallow embedding of the request and response decorators of
    [autorest/azure/azure.go]: the request-ID headers, the long-running
    operation detector, the polling loop and the error-translating responder.

    Go values are modelled as follows.
    - [http.Header] is a [gmap string (list string)], keyed by canonical
      header names as [net/http] stores them.
    - A response body ([io.ReadCloser]) lives in a store of streams and a
      response holds a reference into it, because the responder replaces
      [resp.Body] while a deferred call still closes the old stream.
    - [error] is an inductive with one constructor per dynamic type that the
      package produces or inspects.
    - Functions of the Go standard library that are not re-implemented
      ([fmt.Sprintf], [encoding/json], [net/url]) are section variables. *)

From Stdlib Require Import ZArith.
From Stdlib.Strings Require Import Ascii String Byte.
From stdpp Require Import base option gmap strings list.

Local Open Scope Z_scope.
Local Open Scope string_scope.

(** ** Go standard library: [net/http] headers *)

Module http.

Definition StatusOK : Z := 200.
Definition StatusCreated : Z := 201.
Definition StatusAccepted : Z := 202.

(** [textproto.validHeaderFieldByte]: the token characters of RFC 7230. *)
Definition validHeaderFieldByte (c : ascii) : bool :=
  let n := nat_of_ascii c in
  ((48 <=? n) && (n <=? 57))%nat || ((65 <=? n) && (n <=? 90))%nat
  || ((97 <=? n) && (n <=? 122))%nat
  || bool_decide (n ∈ [33; 35; 36; 37; 38; 39; 42; 43; 45; 46; 94; 95; 96; 124; 126]%nat).

Definition isLower (c : ascii) : bool :=
  let n := nat_of_ascii c in ((97 <=? n) && (n <=? 122))%nat.
Definition isUpper (c : ascii) : bool :=
  let n := nat_of_ascii c in ((65 <=? n) && (n <=? 90))%nat.

(** The loop of [textproto.canonicalMIMEHeaderKey]: upper case for the
    first letter and for a letter after a dash, lower case elsewhere. *)
Fixpoint canonicalize (upper : bool) (s : string) : string :=
  match s with
  | EmptyString => EmptyString
  | String c rest =>
      let c' :=
        if upper && isLower c then ascii_of_nat (nat_of_ascii c - 32)
        else if negb upper && isUpper c then ascii_of_nat (nat_of_ascii c + 32)
        else c in
      String c' (canonicalize (Ascii.eqb c' "-"%char) rest)
  end.

Fixpoint allValid (s : string) : bool :=
  match s with
  | EmptyString => true
  | String c rest => validHeaderFieldByte c && allValid rest
  end.

(** [http.CanonicalHeaderKey]: a key with a byte that is not a token
    character is returned unchanged. *)
Definition CanonicalHeaderKey (s : string) : string :=
  if allValid s then canonicalize true s else s.

Abbreviation Header := (gmap string (list string)).

(** [Header.Get]: the first value stored under the canonical key, or the
    empty string. *)
Definition Get (h : Header) (key : string) : string :=
  match h !! CanonicalHeaderKey key with
  | Some (v :: _) => v
  | _ => ""
  end.

(** [Header.Set]: replaces the values stored under the canonical key. *)
Definition Set_ (h : Header) (key value : string) : Header :=
  <[CanonicalHeaderKey key := [value]]> h.

(** ** Response bodies

    [NetBody unread closed] is the stream of a connection; [NopCloser buf]
    is [ioutil.NopCloser] over a [bytes.Buffer], whose [Close] does
    nothing. *)
Inductive ReadCloser :=
| NetBody (unread : list byte) (closed : bool)
| NopCloser (buf : list byte).

Definition isClosed (s : ReadCloser) : bool :=
  match s with
  | NetBody _ c => c
  | NopCloser _ => false
  end.

(** The bytes a reader would still obtain from the stream. *)
Definition unreadBytes (s : ReadCloser) : list byte :=
  match s with
  | NetBody u c => if c then [] else u
  | NopCloser b => b
  end.

Definition closeStream (s : ReadCloser) : ReadCloser :=
  match s with
  | NetBody u _ => NetBody u true
  | NopCloser b => NopCloser b
  end.

(** The store of streams; a body is an index into it. *)
Abbreviation Store := (list ReadCloser).

Definition Close (ref : nat) (w : Store) : Store :=
  match w !! ref with
  | Some s => <[ref := closeStream s]> w
  | None => w
  end.

Definition alloc (s : ReadCloser) (w : Store) : nat * Store :=
  (List.length w, (w ++ [s])%list).

Record Response := mkResponse {
  StatusCode : Z;
  RespHeader : Header;
  Body : nat
}.

Record Request := mkRequest {
  Method : string;
  URL : option string;
  ReqHeader : Header;
  (** [Cancel]: the channel the caller may close to abort the request;
      [None] is the nil channel. *)
  Cancel : option nat
}.

(** [&http.Request{}] *)
Definition emptyRequest : Request :=
  {| Method := ""; URL := None; ReqHeader := ∅; Cancel := None |}.

End http.

Example canonical_async :
  http.CanonicalHeaderKey "Azure-AsyncOperation" = "Azure-Asyncoperation".
Proof. reflexivity. Qed.

Example canonical_client_id :
  http.CanonicalHeaderKey "x-ms-client-request-id" = "X-Ms-Client-Request-Id".
Proof. reflexivity. Qed.

(** ** Errors

    Go's [error] is an interface; the dynamic types that this package
    creates or inspects are its constructors.  The records take the error
    type as a parameter because [DetailedError.Original] is itself an
    error. *)

Module DetailedError.
(** [autorest.DetailedError] *)
Record t (E : Type) := mk {
  Original : option E;
  PackageType : string;
  Method : string;
  StatusCode : Z;
  Message : string
}.
Arguments mk {E} _ _ _ _ _.
Arguments Original {E} _.
Arguments PackageType {E} _.
Arguments Method {E} _.
Arguments StatusCode {E} _.
Arguments Message {E} _.
End DetailedError.

Module ServiceError.
(** [azure.ServiceError] *)
Record t := mk {
  Code : string;
  Message : string
}.
End ServiceError.

Module RequestError.
(** [azure.RequestError]; [ServiceError] is a pointer, [None] is nil. *)
Record t (E : Type) := mk {
  Detailed : DetailedError.t E;
  ServiceError : option ServiceError.t;
  RequestID : string
}.
Arguments mk {E} _ _ _.
Arguments Detailed {E} _.
Arguments ServiceError {E} _.
Arguments RequestID {E} _.
End RequestError.

Unset Elimination Schemes.
Inductive error :=
| RequestErrorPtr (e : RequestError.t error)   (* *azure.RequestError *)
| DetailedErrorVal (e : DetailedError.t error) (* autorest.DetailedError *)
| errorString (s : string).                    (* fmt.Errorf, errors.New *)
Set Elimination Schemes.

(** An operand of a [fmt] verb. *)
Inductive FmtArg :=
| ArgString (s : string)
| ArgInt (n : Z)
| ArgError (e : option error).

Inductive EncodedAs := EncodedAsJSON | EncodedAsXML.

(** The functions of the Go standard library that the package calls and that
    are not re-implemented here. *)
Class GoStdlib := {
  (** [fmt.Sprintf] *)
  Sprintf : string -> list FmtArg -> string;
  (** Decoding of a whole body into a [RequestError] value
      ([encoding/json], [encoding/xml]): the value after decoding and the
      decoder's error. *)
  Decode : EncodedAs -> list byte -> RequestError.t error ->
           RequestError.t error * option error;
  (** Whether [url.Parse] accepts the string. *)
  url_Parse_ok : string -> bool
}.

(** [fmt.Errorf] *)
Definition Errorf `{GoStdlib} (format : string) (args : list FmtArg) : error :=
  errorString (Sprintf format args).

(** [b.String()] of a [bytes.Buffer]. *)
Definition bytesString (b : list byte) : string := string_of_list_byte b.

(** [strconv.FormatBool] *)
Definition FormatBool (b : bool) : string := if b then "true" else "false".

(** ** The collaborators of package [autorest]

    [azure.go] builds on the decorator pipeline of package [autorest], whose
    source is vendored next to it.  The parts that [azure.go] calls are
    modelled here. *)

Module autorest.

Import http.

Definition UndefinedStatusCode : Z := 0.

(** A [Preparer] returns the prepared request and an error. *)
Definition Preparer := Request -> Request * option error.
Definition PrepareDecorator := Preparer -> Preparer.

(** A [Responder] receives the response by pointer: it may change its
    fields and the streams of the store, and returns an error. *)
Definition Responder := Response -> Store -> Response * Store * option error.
Definition RespondDecorator := Responder -> Responder.

(** The result of [Sender.Do]: a response with a nil error, or an error
    with a response that may be nil. *)
Inductive DoResult :=
| DoResp (resp : Response)
| DoFail (resp : option Response) (err : error).

(** A [Sender] over a transport state [S]. *)
Definition Sender (S : Type) := Request -> S -> DoResult * S.
Definition SendDecorator (S : Type) := Sender S -> Sender S.

(** Modelled from the spec: autorest.ResponseHasStatusCode, the generic
    predicate "does the response status match one of these codes". *)
Definition ResponseHasStatusCode (resp : Response) (codes : list Z) : bool :=
  bool_decide (StatusCode resp ∈ codes).

(** Modelled from the spec: autorest.ResponseRequiresPolling, the generic
    polling-required predicate over a response and the accepted status
    codes: the response carries no terminal marker (200 OK) and its status
    is one of the accepted codes, 202 Accepted when the caller passes
    none. *)
Definition ResponseRequiresPolling (resp : Response) (codes : list Z) : bool :=
  if (StatusCode resp =? StatusOK)%Z then false
  else ResponseHasStatusCode resp
         (match codes with [] => [StatusAccepted] | _ => codes end).

(** Modelled from the spec: autorest.ExtractHeaderValue, which reads a
    header of the response and returns its value, or the empty string if
    it is absent. *)
Definition ExtractHeaderValue (header : string) (resp : Response) : string :=
  Get (RespHeader resp) header.

(** Modelled from the spec: the decorator-chaining mechanism for preparers
    (autorest.DecoratePreparer, autorest.CreatePreparer and
    autorest.Prepare): the decorators wrap a base preparer that returns the
    request as it is; a later decorator wraps an earlier one. *)
Definition DecoratePreparer (p : Preparer) (ds : list PrepareDecorator) : Preparer :=
  fold_left (fun p d => d p) ds p.

(** Modelled from the spec: autorest.CreatePreparer, the decorators around
    the base preparer. *)
Definition CreatePreparer (ds : list PrepareDecorator) : Preparer :=
  DecoratePreparer (fun r => (r, None)) ds.

(** Modelled from the spec: autorest.Prepare, which applies that preparer
    to the request. *)
Definition Prepare (r : Request) (ds : list PrepareDecorator) : Request * option error :=
  CreatePreparer ds r.

(** Modelled from the spec: autorest.WithHeader, a request-mutating
    function that sets the header equal to the value and alters no other
    header; it runs after the preparer it wraps succeeded. *)
Definition WithHeader (header value : string) : PrepareDecorator :=
  fun p r =>
    let '(r, err) := p r in
    match err with
    | None =>
        ({| Method := Method r; URL := URL r;
            ReqHeader := Set_ (ReqHeader r) header value;
            Cancel := Cancel r |}, None)
    | Some _ => (r, err)
    end.

(** Modelled from the spec: autorest.AsGet, which makes the request a GET
    request. *)
Definition AsGet : PrepareDecorator :=
  fun p r =>
    let '(r, err) := p r in
    match err with
    | None =>
        ({| Method := "GET"; URL := URL r; ReqHeader := ReqHeader r;
            Cancel := Cancel r |}, None)
    | Some _ => (r, err)
    end.

Section WithStdlib.
Context `{GoStdlib}.

(** Modelled from the spec: autorest.NewErrorWithError, the detailed
    error of a failed step with its original cause, package and method
    identifiers, status code and formatted message. *)
Definition NewErrorWithError (original : option error)
    (packageType method : string) (resp : option Response)
    (message : string) (args : list FmtArg) : error :=
  DetailedErrorVal
    (DetailedError.mk original packageType method
       (match resp with
        | Some resp => StatusCode resp
        | None => UndefinedStatusCode
        end)
       (Sprintf message args)).

(** Modelled from the spec: autorest.NewErrorWithResponse, the same
    without an original cause. *)
Definition NewErrorWithResponse (packageType method : string)
    (resp : option Response) (message : string) (args : list FmtArg) : error :=
  NewErrorWithError None packageType method resp message args.

(** Modelled from the spec: autorest.WithBaseURL, which targets the
    request at the location; the construction fails when the location is
    not a URL. *)
Definition WithBaseURL (baseURL : string) : PrepareDecorator :=
  fun p r =>
    let '(r, err) := p r in
    match err with
    | None =>
        if url_Parse_ok baseURL then
          ({| Method := Method r; URL := Some baseURL;
              ReqHeader := ReqHeader r; Cancel := Cancel r |}, None)
        else (r, Some (Errorf "parse %s" [ArgString baseURL]))
    | Some _ => (r, err)
    end.

(** Reading a stream to its end ([io.Reader] until EOF): the bytes
    obtained, the read error and the store afterwards.  A closed connection
    body yields no byte and an error. *)
Definition readAll (ref : nat) (w : Store) : list byte * option error * Store :=
  match w !! ref with
  | Some (NetBody u false) => (u, None, <[ref := NetBody [] false]> w)
  | Some (NopCloser b) => (b, None, <[ref := NopCloser []]> w)
  | Some (NetBody _ true) =>
      ([], Some (errorString "http: read on closed response body"), w)
  | None => ([], Some (errorString "invalid body"), w)
  end.

(** Modelled from the spec: autorest.CopyAndDecode, the generic
    decode-and-copy utility: the body is fully read, the bytes read are
    kept in a buffer, and they are decoded into the value. *)
Definition CopyAndDecode (encodedAs : EncodedAs) (ref : nat)
    (v : RequestError.t error) (w : Store)
    : list byte * RequestError.t error * option error * Store :=
  let '(b, readErr, w) := readAll ref w in
  match readErr with
  | Some e => (b, v, Some e, w)
  | None => let '(v, decodeErr) := Decode encodedAs b v in (b, v, decodeErr, w)
  end.

End WithStdlib.

(** Modelled from the spec: the decorator-chaining mechanism for
    responders (autorest.DecorateResponder, autorest.Respond) around a
    base responder that accepts every response. *)
Definition DecorateResponder (r : Responder) (ds : list RespondDecorator) : Responder :=
  fold_left (fun r d => d r) ds r.

(** Modelled from the spec: the base respond step, which accepts the
    response and touches nothing. *)
Definition baseResponder : Responder := fun resp w => (resp, w, None).

(** Modelled from the spec: autorest.Respond, the decorators around the
    base responder, applied to the response. *)
Definition Respond (resp : Response) (ds : list RespondDecorator) (w : Store)
    : Response * Store * option error :=
  DecorateResponder baseResponder ds resp w.

(** Modelled from the spec: autorest.ByIgnoring, which passes the response
    on unexamined. *)
Definition ByIgnoring : RespondDecorator := fun r => r.

(** Modelled from the spec: autorest.ByClosing, which runs the responder
    it wraps and then closes the body of the response. *)
Definition ByClosing : RespondDecorator :=
  fun r resp w =>
    let '(resp, w, err) := r resp w in
    (resp, Close (Body resp) w, err).

(** Modelled from the spec: autorest.Client, of which [azure.go] uses the
    response inspector only; without one the response is ignored. *)
Record Client := mkClient {
  ResponseInspector : option RespondDecorator
}.

(** Modelled from the spec: Client.ByInspecting, the response-inspection
    step of the client. *)
Definition ByInspecting (c : Client) : RespondDecorator :=
  match ResponseInspector c with
  | None => ByIgnoring
  | Some d => d
  end.

End autorest.

(** ** Package [azure] *)

Module azure.

Import http autorest.

Definition HeaderAsyncOperation : string := "Azure-AsyncOperation".
Definition HeaderClientID : string := "x-ms-client-request-id".
Definition HeaderReturnClientID : string := "x-ms-return-client-request-id".
Definition HeaderRequestID : string := "x-ms-request-id".

Abbreviation RequestError := (RequestError.t error).

(** The zero value of [RequestError] ([var e RequestError]). *)
Definition zeroRequestError : RequestError :=
  RequestError.mk (DetailedError.mk None "" "" 0 "") None "".

(** [IsAzureError]: the type assertion of the error to a pointer to
    [RequestError]. *)
Definition IsAzureError (e : option error) : bool :=
  match e with
  | Some (RequestErrorPtr _) => true
  | _ => false
  end.

(** [WithClientID] *)
Definition WithClientID (uuid : string) : PrepareDecorator :=
  WithHeader HeaderClientID uuid.

(** [WithReturnClientID] *)
Definition WithReturnClientID (b : bool) : PrepareDecorator :=
  WithHeader HeaderReturnClientID (FormatBool b).

(** [WithReturningClientID] *)
Definition WithReturningClientID (uuid : string) : PrepareDecorator :=
  let preparer := CreatePreparer [WithClientID uuid; WithReturnClientID true] in
  fun p r =>
    let '(r, err) := p r in
    match err with
    | Some _ => (r, err)
    | None => preparer r
    end.

(** [ExtractClientID] *)
Definition ExtractClientID (resp : Response) : string :=
  ExtractHeaderValue HeaderClientID resp.

(** [ExtractRequestID] *)
Definition ExtractRequestID (resp : Response) : string :=
  ExtractHeaderValue HeaderRequestID resp.

(** [GetAsyncOperation] *)
Definition GetAsyncOperation (resp : Response) : string :=
  Get (RespHeader resp) (CanonicalHeaderKey HeaderAsyncOperation).

(** [ResponseIsLongRunning] *)
Definition ResponseIsLongRunning (resp : Response) : bool :=
  ResponseRequiresPolling resp [StatusCreated]
  && negb (String.eqb (GetAsyncOperation resp) "").

Section WithStdlib.
Context `{GoStdlib}.

(** [RequestError.Error]; [None] is the panic of dereferencing a nil
    [ServiceError]. *)
Definition Error (e : RequestError) : option string :=
  match RequestError.ServiceError e with
  | None => None
  | Some se =>
      Some (Sprintf "azure: Service returned an error. Code=%q Message=%q Status=%d"
              [ArgString (ServiceError.Code se);
               ArgString (ServiceError.Message se);
               ArgInt (DetailedError.StatusCode (RequestError.Detailed e))])
  end.

(** [NewErrorWithError] *)
Definition NewErrorWithError (original : option error)
    (packageType method : string) (resp : option Response)
    (message : string) (args : list FmtArg) : RequestError :=
  match original with
  | Some (RequestErrorPtr v) => v
  | _ =>
      let statusCode :=
        match resp with
        | Some resp => StatusCode resp
        | None => UndefinedStatusCode
        end in
      RequestError.mk
        (DetailedError.mk original packageType method statusCode
           (Sprintf message args))
        None ""
  end.

(** [NewAsyncPollingRequest]: the request (nil is [None]), the error,
    and the response and the store as the call leaves them. *)
Definition NewAsyncPollingRequest (resp : Response) (c : Client) (w : Store)
    : option Request * option error * Response * Store :=
  let location := GetAsyncOperation resp in
  if String.eqb location "" then
    (None,
     Some (NewErrorWithResponse "azure" "NewAsyncPollingRequest" (Some resp)
             "Azure-AsyncOperation header missing from response that requires polling" []),
     resp, w)
  else
    let '(req, err) := Prepare emptyRequest [AsGet; WithBaseURL location] in
    match err with
    | Some _ =>
        (None,
         Some (autorest.NewErrorWithError err "azure" "NewAsyncPollingRequest" None
                 "Failure creating poll request to %s" [ArgString location]),
         resp, w)
    | None =>
        let '(resp, w, _) := Respond resp [ByInspecting c; ByClosing] w in
        (Some req, None, resp, w)
    end.

(** [WithErrorUnlessStatusCode].  The deferred [resp.Body.Close()] acts
    on the body the response had when the [defer] statement ran, and runs
    last. *)
Definition WithErrorUnlessStatusCode (codes : list Z) : RespondDecorator :=
  fun r resp w =>
    let '(resp, w, err) := r resp w in
    match err with
    | None =>
        if negb (ResponseHasStatusCode resp codes) then
          let deferred := Body resp in
          let '(b, e, decodeErr, w) :=
            CopyAndDecode EncodedAsJSON (Body resp) zeroRequestError w in
          let '(body, w) := alloc (NopCloser b) w in
          let resp := {| StatusCode := StatusCode resp;
                         RespHeader := RespHeader resp;
                         Body := body |} in
          if bool_decide (decodeErr ≠ None ∨ RequestError.ServiceError e = None) then
            (resp, Close deferred w,
             Some (Errorf "autorest/azure: error response cannot be parsed: %q error: %v"
                     [ArgString (bytesString b); ArgError err]))
          else
            let e := RequestError.mk (RequestError.Detailed e)
                       (RequestError.ServiceError e) (ExtractRequestID resp) in
            let e := RequestError.mk
                       (let d := RequestError.Detailed e in
                        DetailedError.mk (DetailedError.Original d)
                          (DetailedError.PackageType d) (DetailedError.Method d)
                          (StatusCode resp) (DetailedError.Message d))
                       (RequestError.ServiceError e) (RequestError.RequestID e) in
            (resp, Close deferred w, Some (RequestErrorPtr e))
        else (resp, w, err)
    | Some _ => (resp, w, err)
    end.

End WithStdlib.

(** The polling loop.  The delay primitives of package [autorest] are
    given: [GetPollingDelay] looks up the delay the server suggests, or
    the default, and [DelayForBackoff] waits in an environment [E] (the
    clock and the cancellation channels) and reports a cancellation as an
    error. *)
Section Polling.
Context {E : Type}.
Variable GetPollingDelay : Response -> Z -> Z.
Variable DelayForBackoff : Z -> Z -> option nat -> E -> option error * E.

(** The [for] loop of [WithAsyncPolling], entered with the result of
    the last [s.Do(r)]; [fuel] bounds the number of iterations and
    [None] means that it ran out. *)
Fixpoint pollLoop {T : Type} (fuel : nat) (defaultDelay : Z) (s : Sender T)
    (r : Request) (res : DoResult) (st : T) (env : E)
    : option (DoResult * T * E) :=
  match res with
  | DoFail _ _ => Some (res, st, env)
  | DoResp resp =>
      if ResponseIsLongRunning resp then
        match fuel with
        | O => None
        | S fuel =>
            let '(err, env) :=
              DelayForBackoff (GetPollingDelay resp defaultDelay) 1 (Cancel r) env in
            match err with
            | Some e => Some (DoFail (Some resp) e, st, env)
            | None =>
                let '(res, st) := s r st in
                pollLoop fuel defaultDelay s r res st env
            end
        end
      else Some (res, st, env)
  end.

(** [WithAsyncPolling] *)
Definition WithAsyncPolling {T : Type} (fuel : nat) (defaultDelay : Z)
    (s : Sender T) (r : Request) (st : T) (env : E)
    : option (DoResult * T * E) :=
  let '(res, st) := s r st in
  pollLoop fuel defaultDelay s r res st env.

End Polling.

End azure.

(** ** Concrete inputs

    A stand-in for the standard library and a few responses, on which the
    definitions are run. *)

Module sample.

Import http autorest azure.

(** A decoder that accepts a body starting with an opening brace and
    reports its text as the message of a service error with code
    [Conflict], that accepts the body [null] without a service error, and
    that rejects any other body. *)
Definition decodeBody (b : list byte) (v : RequestError) : RequestError * option error :=
  match b with
  | x7b :: _ =>
      (RequestError.mk (RequestError.Detailed v)
         (Some (ServiceError.mk "Conflict" (bytesString b)))
         (RequestError.RequestID v), None)
  | [x6e; x75; x6c; x6c] => (v, None)
  | _ => (v, Some (errorString "invalid character"))
  end.

#[export] Instance stdlib : GoStdlib := {|
  Sprintf := fun format _ => format;
  Decode := fun _ => decodeBody;
  url_Parse_ok := fun s => negb (String.eqb s ":")
|}.

Definition pollURL : string := "https://management.azure.com/operations/1".

Definition asyncHeader : Header :=
  {[ "Azure-Asyncoperation" := [pollURL]; "X-Ms-Request-Id" := ["req-1"] ]}.

Definition createdResponse : Response :=
  {| StatusCode := 201; RespHeader := asyncHeader; Body := 0 |}.

Definition acceptedResponse : Response :=
  {| StatusCode := 202; RespHeader := asyncHeader; Body := 0 |}.

Definition okResponse : Response :=
  {| StatusCode := 200; RespHeader := asyncHeader; Body := 0 |}.

Definition plainResponse (code : Z) : Response :=
  {| StatusCode := code; RespHeader := {[ "X-Ms-Request-Id" := ["req-1"] ]}; Body := 0 |}.

(** A body text written with single quotes, as bytes with double quotes. *)
Fixpoint quoted (s : string) : string :=
  match s with
  | EmptyString => EmptyString
  | String c rest =>
      String (if Ascii.eqb c "'"%char then ascii_of_nat 34 else c) (quoted rest)
  end.

Definition errorBody : list byte :=
  list_byte_of_string (quoted "{'error':{'code':'Conflict','message':'busy'}}").

End sample.

(** ** Long-running operation detection *)

Module detection.

Import http autorest azure.

(** The [Azure-AsyncOperation] header is present and not empty: the header
    map holds a first value under the canonical key, and it is not the
    empty string. *)
Definition hasAsyncOperation (resp : Response) : Prop :=
  ∃ v vs, RespHeader resp !! "Azure-Asyncoperation" = Some (v :: vs) ∧ v ≠ "".

Lemma GetAsyncOperation_lookup resp :
  GetAsyncOperation resp =
    match RespHeader resp !! "Azure-Asyncoperation" with
    | Some (v :: _) => v
    | _ => ""
    end.
Proof. reflexivity. Qed.

Lemma GetAsyncOperation_nonempty resp :
  GetAsyncOperation resp ≠ "" ↔ hasAsyncOperation resp.
Proof.
  rewrite GetAsyncOperation_lookup. unfold hasAsyncOperation. split.
  - destruct (RespHeader resp !! "Azure-Asyncoperation") as [[|v vs]|] eqn:Hl;
      try congruence.
    intros Hv. by exists v, vs.
  - intros (v & vs & -> & Hv). exact Hv.
Qed.

Lemma eqb_empty_false (s : string) : negb (String.eqb s "") = true ↔ s ≠ "".
Proof.
  rewrite negb_true_iff. destruct (String.eqb_spec s ""); split; congruence.
Qed.

Lemma long_running_spec resp :
  ResponseIsLongRunning resp = true ↔
  ResponseRequiresPolling resp [StatusCreated] = true ∧ hasAsyncOperation resp.
Proof.
  unfold ResponseIsLongRunning.
  rewrite andb_true_iff, eqb_empty_false, GetAsyncOperation_nonempty. done.
Qed.

(** C7. [ResponseIsLongRunning] returns true exactly when the generic
    polling-required predicate holds for the response (with the accepted
    status [ResponseIsLongRunning] passes to it) and the
    [Azure-AsyncOperation] header is present and not empty; a response
    without the header is not long-running, whatever its status code. *)
Theorem ResponseIsLongRunning_iff :
  (∀ resp,
     ResponseIsLongRunning resp = true ↔
     ResponseRequiresPolling resp [StatusCreated] = true ∧ hasAsyncOperation resp)
  ∧ (∀ resp,
       RespHeader resp !! "Azure-Asyncoperation" = None →
       ResponseIsLongRunning resp = false).
Proof.
  split; [exact long_running_spec |].
  intros resp Hnone. unfold ResponseIsLongRunning.
  rewrite GetAsyncOperation_lookup, Hnone. simpl. apply andb_false_r.
Qed.

Lemma ResponseIsLongRunning_iff_witness :
  ResponseIsLongRunning (sample.plainResponse 201) = false
  ∧ ResponseIsLongRunning (sample.plainResponse 202) = false.
Proof.
  split; apply (proj2 ResponseIsLongRunning_iff); reflexivity.
Defined.

(** C1, as the code has it.  [ResponseIsLongRunning] passes 201 (Created)
    to the polling predicate as the accepted status: a response with
    status 201 and a non-empty [Azure-AsyncOperation] header is
    long-running. *)
Theorem ResponseIsLongRunning_created resp :
  StatusCode resp = StatusCreated →
  hasAsyncOperation resp →
  ResponseIsLongRunning resp = true.
Proof.
  intros Hs Hh. apply long_running_spec. split; [| exact Hh].
  unfold ResponseRequiresPolling, ResponseHasStatusCode. rewrite Hs.
  reflexivity.
Qed.

Lemma sample_hasAsyncOperation code :
  hasAsyncOperation {| StatusCode := code; RespHeader := sample.asyncHeader; Body := 0 |}.
Proof. exists sample.pollURL, []. split; [reflexivity | discriminate]. Qed.

Lemma ResponseIsLongRunning_created_witness :
  ResponseIsLongRunning sample.createdResponse = true.
Proof.
  apply (ResponseIsLongRunning_created sample.createdResponse);
    [reflexivity | apply sample_hasAsyncOperation].
Defined.

(** C1 as stated fails: a response with status 202 (Accepted) and a
    non-empty [Azure-AsyncOperation] header is not long-running, because
    202 is not the accepted status that [ResponseIsLongRunning] passes. *)
Lemma ResponseIsLongRunning_accepted_false :
  StatusCode sample.acceptedResponse = StatusAccepted
  ∧ hasAsyncOperation sample.acceptedResponse
  ∧ ResponseIsLongRunning sample.acceptedResponse = false.
Proof.
  split; [reflexivity |]. split; [apply sample_hasAsyncOperation | reflexivity].
Qed.

End detection.

(** ** Request-ID decorators *)

Module request_id.

Import http autorest azure.

Lemma Set_lookup (h : Header) key value :
  Set_ h key value !! CanonicalHeaderKey key = Some [value].
Proof. unfold Set_. apply lookup_insert_eq. Qed.

Lemma Set_lookup_other (h : Header) key value k :
  k ≠ CanonicalHeaderKey key → Set_ h key value !! k = h !! k.
Proof. intros Hk. unfold Set_. by apply lookup_insert_ne. Qed.

Lemma Get_Set (h : Header) key value : Get (Set_ h key value) key = value.
Proof. unfold Get. by rewrite Set_lookup. Qed.

(** C9. The preparer that [WithClientID "ABC"] makes from a preparer [p],
    applied to a request that [p] prepares without error, sets the header
    [x-ms-client-request-id] to exactly [ABC]: the header map of the
    result holds the single value [ABC] under the header's canonical key,
    every other key holds what it held after [p], so that no other header
    is added or changed, and the method, the URL and the cancellation
    channel of the request are kept. *)
Theorem WithClientID_sets_only_client_id (p : Preparer) (r r1 : Request) :
  p r = (r1, None) →
  ∃ r2,
    WithClientID "ABC" p r = (r2, None)
    ∧ Get (ReqHeader r2) HeaderClientID = "ABC"
    ∧ ReqHeader r2 !! "X-Ms-Client-Request-Id" = Some ["ABC"]
    ∧ (∀ k, k ≠ "X-Ms-Client-Request-Id" → ReqHeader r2 !! k = ReqHeader r1 !! k)
    ∧ dom (ReqHeader r2) = {["X-Ms-Client-Request-Id"]} ∪ dom (ReqHeader r1)
    ∧ Method r2 = Method r1 ∧ URL r2 = URL r1 ∧ Cancel r2 = Cancel r1.
Proof.
  intros Hp. unfold WithClientID, WithHeader. rewrite Hp.
  eexists. split; [reflexivity |]. simpl.
  split; [apply Get_Set |].
  split; [apply (Set_lookup _ HeaderClientID) |].
  split; [intros k Hk; by apply (Set_lookup_other _ HeaderClientID) |].
  split; [apply dom_insert_L | done].
Qed.

(** The request of the example: a PUT with one header of its own. *)
Definition putRequest : Request :=
  {| Method := "PUT"; URL := Some sample.pollURL;
     ReqHeader := {[ "Content-Type" := ["application/json"] ]};
     Cancel := None |}.

Lemma WithClientID_sets_only_client_id_witness :
  ∃ r2,
    CreatePreparer [WithClientID "ABC"] putRequest = (r2, None)
    ∧ Get (ReqHeader r2) HeaderClientID = "ABC"
    ∧ ReqHeader r2 !! "X-Ms-Client-Request-Id" = Some ["ABC"]
    ∧ (∀ k, k ≠ "X-Ms-Client-Request-Id" →
            ReqHeader r2 !! k = ReqHeader putRequest !! k)
    ∧ dom (ReqHeader r2) = {["X-Ms-Client-Request-Id"]} ∪ dom (ReqHeader putRequest)
    ∧ Method r2 = Method putRequest ∧ URL r2 = URL putRequest
    ∧ Cancel r2 = Cancel putRequest.
Proof.
  exact (WithClientID_sets_only_client_id (fun r => (r, None)) putRequest putRequest
           eq_refl).
Defined.

End request_id.

(** ** The error-translating responder *)

Module responder.

Import http autorest azure.

(** A stream after it was read to its end. *)
Definition drained (s : ReadCloser) : ReadCloser :=
  match s with
  | NetBody _ false => NetBody [] false
  | NetBody u true => NetBody u true
  | NopCloser _ => NopCloser []
  end.

Lemma readAll_lookup ref (w : Store) s :
  w !! ref = Some s →
  readAll ref w =
    (unreadBytes s,
     if isClosed s then Some (errorString "http: read on closed response body")
     else None,
     <[ref := drained s]> w).
Proof.
  intros Hs. unfold readAll. rewrite Hs.
  destruct s as [u [|]|b]; simpl; try reflexivity.
  by rewrite list_insert_id.
Qed.

Lemma Close_alloc ref (w : Store) s x :
  w !! ref = Some s →
  Close ref (w ++ [x])%list = (<[ref := closeStream s]> w ++ [x])%list.
Proof.
  intros Hs. unfold Close.
  pose proof (lookup_lt_Some _ _ _ Hs) as Hlt.
  rewrite lookup_app_l, Hs by exact Hlt.
  by rewrite insert_app_l.
Qed.

(** The response with its body replaced. *)
Definition withBody (resp : Response) (body : nat) : Response :=
  {| StatusCode := StatusCode resp; RespHeader := RespHeader resp; Body := body |}.

(** The store after the responder decoded the body [s] of [resp]: the
    stream is read to its end and closed, and the copy is a new stream. *)
Definition decodedStore (resp : Response) (s : ReadCloser) (w : Store) : Store :=
  (<[Body resp := closeStream (drained s)]> w ++ [NopCloser (unreadBytes s)])%list.

(** What the decoder is given and returns for the body [s]. *)
Definition decoded `{GoStdlib} (s : ReadCloser) : RequestError * option error :=
  if isClosed s then
    (zeroRequestError, Some (errorString "http: read on closed response body"))
  else Decode EncodedAsJSON (unreadBytes s) zeroRequestError.

(** The [RequestError] after [RequestID] and [StatusCode] are assigned. *)
Definition populated (e : RequestError) (resp : Response) : RequestError :=
  let d := RequestError.Detailed e in
  RequestError.mk
    (DetailedError.mk (DetailedError.Original d) (DetailedError.PackageType d)
       (DetailedError.Method d) (StatusCode resp) (DetailedError.Message d))
    (RequestError.ServiceError e) (ExtractRequestID resp).

Section WithStdlib.
Context `{GoStdlib}.

Lemma CopyAndDecode_lookup ref (w : Store) s :
  w !! ref = Some s →
  CopyAndDecode EncodedAsJSON ref zeroRequestError w =
    (unreadBytes s, (decoded s).1, (decoded s).2, <[ref := drained s]> w).
Proof.
  intros Hs. unfold CopyAndDecode, decoded. rewrite (readAll_lookup _ _ _ Hs).
  destruct (isClosed s); [reflexivity |].
  by destruct (Decode _ _ _).
Qed.

(** The responder on a response that the inner responder accepted and
    whose status is not among the codes. *)
Lemma unless_outside codes (r : Responder) resp w resp1 w1 s :
  r resp w = (resp1, w1, None) →
  StatusCode resp1 ∉ codes →
  w1 !! Body resp1 = Some s →
  WithErrorUnlessStatusCode codes r resp w =
    (withBody resp1 (List.length w1), decodedStore resp1 s w1,
     Some (if bool_decide ((decoded s).2 ≠ None
                           ∨ RequestError.ServiceError (decoded s).1 = None)
           then Errorf "autorest/azure: error response cannot be parsed: %q error: %v"
                  [ArgString (bytesString (unreadBytes s)); ArgError None]
           else RequestErrorPtr (populated (decoded s).1 resp1))).
Proof.
  intros Hr Hcode Hs. unfold WithErrorUnlessStatusCode. rewrite Hr.
  unfold ResponseHasStatusCode. rewrite bool_decide_eq_false_2 by exact Hcode.
  simpl. rewrite (CopyAndDecode_lookup _ _ _ Hs). unfold alloc.
  rewrite length_insert.
  assert (<[Body resp1 := drained s]> w1 !! Body resp1 = Some (drained s)) as Hd.
  { apply list_lookup_insert_eq. by eapply lookup_lt_Some. }
  rewrite (Close_alloc _ _ _ _ Hd), list_insert_insert_eq.
  unfold decodedStore, withBody.
  case_bool_decide; reflexivity.
Qed.

Lemma unless_inside codes (r : Responder) resp w resp1 w1 :
  r resp w = (resp1, w1, None) →
  StatusCode resp1 ∈ codes →
  WithErrorUnlessStatusCode codes r resp w = (resp1, w1, None).
Proof.
  intros Hr Hcode. unfold WithErrorUnlessStatusCode. rewrite Hr.
  unfold ResponseHasStatusCode. by rewrite bool_decide_eq_true_2.
Qed.


(** C8. When the inner responder returns no error and the status code of
    the response is among the codes, the responder returns no error and
    hands back the response and the store of streams exactly as the
    inner responder left them: the body is neither read, nor closed, nor
    replaced. *)
Theorem WithErrorUnlessStatusCode_whitelisted codes (r : Responder)
    resp w resp1 w1 :
  r resp w = (resp1, w1, None) →
  StatusCode resp1 ∈ codes →
  WithErrorUnlessStatusCode codes r resp w = (resp1, w1, None)
  ∧ (WithErrorUnlessStatusCode codes r resp w).1.1 = resp1
  ∧ (WithErrorUnlessStatusCode codes r resp w).1.2 !! Body resp1 = w1 !! Body resp1.
Proof.
  intros Hr Hcode. rewrite (unless_inside _ _ _ _ _ _ Hr Hcode). done.
Qed.

(** C2. When the inner responder returns no error, the status code is
    not among the codes, and the body decodes without error into a value
    with a service error, the responder returns a [RequestError] that
    carries the decoded service error (its code and its message), the
    value of the [x-ms-request-id] header of the response as
    [RequestID], and the status code of the response as [StatusCode]. *)
Theorem WithErrorUnlessStatusCode_service_error codes (r : Responder)
    resp w resp1 w1 s e se :
  r resp w = (resp1, w1, None) →
  StatusCode resp1 ∉ codes →
  w1 !! Body resp1 = Some s →
  isClosed s = false →
  Decode EncodedAsJSON (unreadBytes s) zeroRequestError = (e, None) →
  RequestError.ServiceError e = Some se →
  ∃ resp2 w2 e',
    WithErrorUnlessStatusCode codes r resp w = (resp2, w2, Some (RequestErrorPtr e'))
    ∧ RequestError.ServiceError e' = Some se
    ∧ ServiceError.Code <$> RequestError.ServiceError e' = Some (ServiceError.Code se)
    ∧ ServiceError.Message <$> RequestError.ServiceError e'
      = Some (ServiceError.Message se)
    ∧ RequestError.RequestID e' = Get (RespHeader resp1) "x-ms-request-id"
    ∧ DetailedError.StatusCode (RequestError.Detailed e') = StatusCode resp1.
Proof.
  intros Hr Hcode Hs Hopen Hdec Hse.
  rewrite (unless_outside _ _ _ _ _ _ _ Hr Hcode Hs).
  assert (decoded s = (e, None)) as Hd by (unfold decoded; by rewrite Hopen).
  rewrite Hd. simpl.
  rewrite bool_decide_eq_false_2
    by (intros [Hn | Hn]; [done | by rewrite Hse in Hn]).
  do 3 eexists. split; [reflexivity |]. simpl. rewrite Hse. done.
Qed.

(** C6. When the inner responder returns no error, the status code is
    not among the codes, and the body cannot be read or decoded, or
    decodes into a value without a service error, the responder returns
    the error made by [fmt.Errorf] from the "cannot be parsed" format,
    the text of the body and the error of the inner responder (nil on
    this path); the error is not a [RequestError]. *)
Theorem WithErrorUnlessStatusCode_not_parsed codes (r : Responder)
    resp w resp1 w1 s :
  r resp w = (resp1, w1, None) →
  StatusCode resp1 ∉ codes →
  w1 !! Body resp1 = Some s →
  isClosed s = true
  ∨ (Decode EncodedAsJSON (unreadBytes s) zeroRequestError).2 ≠ None
  ∨ RequestError.ServiceError
      (Decode EncodedAsJSON (unreadBytes s) zeroRequestError).1 = None →
  ∃ resp2 w2 err,
    WithErrorUnlessStatusCode codes r resp w = (resp2, w2, Some err)
    ∧ err = Errorf "autorest/azure: error response cannot be parsed: %q error: %v"
              [ArgString (bytesString (unreadBytes s)); ArgError None]
    ∧ IsAzureError (Some err) = false.
Proof.
  intros Hr Hcode Hs Hfail.
  rewrite (unless_outside _ _ _ _ _ _ _ Hr Hcode Hs).
  rewrite bool_decide_eq_true_2.
  { do 3 eexists. split; [reflexivity |]. done. }
  unfold decoded. destruct (isClosed s); [by left |].
  destruct Hfail as [Hc | [Hd | Hn]]; [done | by left | by right].
Qed.

(** C4. When the inner responder returns no error and the status code is
    not among the codes, then whatever the decoder makes of the body,
    the stream that was the body is read to its end and closed, and the
    body of the response is a new in-memory reader over exactly the
    bytes that were read: for an open stream, all the bytes it had.
    No other stream, and neither the status code nor the headers of the
    response, change. *)
Theorem WithErrorUnlessStatusCode_replaces_body codes (r : Responder)
    resp w resp1 w1 s :
  r resp w = (resp1, w1, None) →
  StatusCode resp1 ∉ codes →
  w1 !! Body resp1 = Some s →
  ∃ resp2 w2 err,
    WithErrorUnlessStatusCode codes r resp w = (resp2, w2, Some err)
    ∧ Body resp2 ≠ Body resp1
    ∧ w1 !! Body resp2 = None
    ∧ w2 !! Body resp2 = Some (NopCloser (unreadBytes s))
    ∧ (∀ u, s = NetBody u false →
            w2 !! Body resp2 = Some (NopCloser u)
            ∧ w2 !! Body resp1 = Some (NetBody [] true))
    ∧ (∃ s', w2 !! Body resp1 = Some s' ∧ unreadBytes s' = []
             ∧ closeStream s' = s'
             ∧ (∀ u c, s = NetBody u c → isClosed s' = true))
    ∧ (∀ k, k ≠ Body resp1 → k ≠ Body resp2 → w2 !! k = w1 !! k)
    ∧ StatusCode resp2 = StatusCode resp1
    ∧ RespHeader resp2 = RespHeader resp1.
Proof.
  intros Hr Hcode Hs.
  rewrite (unless_outside _ _ _ _ _ _ _ Hr Hcode Hs).
  pose proof (lookup_lt_Some _ _ _ Hs) as Hlt.
  do 3 eexists. split; [reflexivity |]. simpl. unfold decodedStore.
  assert (∀ x, (<[Body resp1 := x]> w1 ++ [NopCloser (unreadBytes s)])%list
                 !! Body resp1 = Some x) as Hold.
  { intros x. rewrite lookup_app_l by (rewrite length_insert; exact Hlt).
    by apply list_lookup_insert_eq. }
  assert ((<[Body resp1 := closeStream (drained s)]> w1
             ++ [NopCloser (unreadBytes s)])%list !! List.length w1
          = Some (NopCloser (unreadBytes s))) as Hnew.
  { rewrite lookup_app_r by (rewrite length_insert; lia).
    rewrite length_insert, Nat.sub_diag. reflexivity. }
  split; [lia |].
  split; [apply lookup_ge_None; lia |].
  split; [exact Hnew |].
  split.
  { intros u ->. split; [exact Hnew | apply Hold]. }
  split.
  { eexists. split; [apply Hold |].
    destruct s as [u [|]|b]; simpl; repeat split; try done.
    all: intros ? ? [=]. }
  split; [| done].
  intros k Hk1 Hk2.
  destruct (decide (k < List.length w1)%nat) as [Hk | Hk].
  - rewrite lookup_app_l by (rewrite length_insert; exact Hk).
    by apply list_lookup_insert_ne.
  - rewrite (lookup_ge_None_2 w1) by lia.
    apply lookup_ge_None. rewrite length_app, length_insert. simpl. lia.
Qed.


Lemma returned_RequestError_has_payload codes (r : Responder)
    resp w resp1 w1 err1 resp2 w2 e :
  r resp w = (resp1, w1, err1) →
  WithErrorUnlessStatusCode codes r resp w = (resp2, w2, Some (RequestErrorPtr e)) →
  err1 = Some (RequestErrorPtr e)
  ∨ (err1 = None ∧ RequestError.ServiceError e ≠ None).
Proof.
  intros Hr Hret. destruct err1 as [err1 |].
  { left. unfold WithErrorUnlessStatusCode in Hret. rewrite Hr in Hret. congruence. }
  right. split; [reflexivity |].
  destruct (decide (StatusCode resp1 ∈ codes)) as [Hin | Hout].
  { rewrite (unless_inside _ _ _ _ _ _ Hr Hin) in Hret. congruence. }
  destruct (w1 !! Body resp1) as [s |] eqn:Hs.
  - rewrite (unless_outside _ _ _ _ _ _ _ Hr Hout Hs) in Hret.
    case_bool_decide as Hd.
    + unfold Errorf in Hret. congruence.
    + injection Hret as _ _ <-. simpl. intros Hn. apply Hd. by right.
  - unfold WithErrorUnlessStatusCode in Hret. rewrite Hr in Hret.
    unfold ResponseHasStatusCode in Hret.
    rewrite bool_decide_eq_false_2 in Hret by exact Hout. simpl in Hret.
    unfold CopyAndDecode, readAll in Hret. rewrite Hs in Hret. simpl in Hret.
    unfold Errorf in Hret. congruence.
Qed.

Lemma Error_None (e : RequestError) :
  Error e = None ↔ RequestError.ServiceError e = None.
Proof. unfold Error. by destruct (RequestError.ServiceError e). Qed.

(** C10, as the code has it.  [RequestError.Error] dereferences
    [ServiceError]: it panics exactly when [ServiceError] is nil.  Every
    [RequestError] that [WithErrorUnlessStatusCode] makes itself, which is
    every one it returns after the inner responder returned no error, has a
    [ServiceError], so that [Error] is safe on it; an error of the inner
    responder is handed on as it is, and the responder promises nothing
    about it.  [NewErrorWithError] returns a [RequestError] without
    [ServiceError], on which [Error] panics, unless the original error is a
    pointer to a [RequestError], which it returns as it is. *)
Theorem Error_needs_ServiceError :
  (∀ e, Error e = None ↔ RequestError.ServiceError e = None)
  ∧ (∀ codes (r : Responder) resp w resp1 w1 resp2 w2 e,
       r resp w = (resp1, w1, None) →
       WithErrorUnlessStatusCode codes r resp w
         = (resp2, w2, Some (RequestErrorPtr e)) →
       RequestError.ServiceError e ≠ None ∧ Error e ≠ None)
  ∧ (∀ codes (r : Responder) resp w resp1 w1 err,
       r resp w = (resp1, w1, Some err) →
       WithErrorUnlessStatusCode codes r resp w = (resp1, w1, Some err))
  ∧ (∀ original packageType method resp message args,
       (∀ v, original ≠ Some (RequestErrorPtr v)) →
       RequestError.ServiceError
         (NewErrorWithError original packageType method resp message args) = None
       ∧ Error (NewErrorWithError original packageType method resp message args)
         = None)
  ∧ (∀ v packageType method resp message args,
       NewErrorWithError (Some (RequestErrorPtr v)) packageType method resp
         message args = v).
Proof.
  split; [exact Error_None |]. split; [| split; [| split]].
  - intros codes r resp w resp1 w1 resp2 w2 e Hr Hret.
    destruct (returned_RequestError_has_payload _ _ _ _ _ _ _ _ _ _ Hr Hret)
      as [Hinner | [_ Hse]]; [discriminate |].
    split; [exact Hse |]. by rewrite Error_None.
  - intros codes r resp w resp1 w1 err Hr.
    unfold WithErrorUnlessStatusCode. by rewrite Hr.
  - intros original packageType method resp message args Hnot.
    assert (RequestError.ServiceError
              (NewErrorWithError original packageType method resp message args)
            = None) as Hnil.
    { unfold NewErrorWithError.
      destruct original as [[v | d | m] |]; try reflexivity.
      by destruct (Hnot v). }
    split; [exact Hnil |]. by apply Error_None.
  - reflexivity.
Qed.

End WithStdlib.

(** *** The theorems on concrete responses *)

#[local] Existing Instance sample.stdlib.

(** A store whose only stream is the open body of a response. *)
Definition storeOf (body : list byte) : Store := [NetBody body false].

Lemma conflict_not_ok : (409 : Z) ∉ [http.StatusOK].
Proof. apply not_elem_of_cons. split; [done | apply not_elem_of_nil]. Qed.

Lemma WithErrorUnlessStatusCode_whitelisted_witness :
  WithErrorUnlessStatusCode [http.StatusOK; 409] baseResponder
    (sample.plainResponse 409) (storeOf sample.errorBody)
    = (sample.plainResponse 409, storeOf sample.errorBody, None)
  ∧ (WithErrorUnlessStatusCode [http.StatusOK; 409] baseResponder
       (sample.plainResponse 409) (storeOf sample.errorBody)).1.1
    = sample.plainResponse 409
  ∧ (WithErrorUnlessStatusCode [http.StatusOK; 409] baseResponder
       (sample.plainResponse 409) (storeOf sample.errorBody)).1.2 !! 0%nat
    = storeOf sample.errorBody !! 0%nat.
Proof.
  apply (WithErrorUnlessStatusCode_whitelisted [http.StatusOK; 409] baseResponder
           (sample.plainResponse 409) (storeOf sample.errorBody)
           (sample.plainResponse 409) (storeOf sample.errorBody) eq_refl).
  apply elem_of_cons. right. apply elem_of_cons. by left.
Defined.

Lemma WithErrorUnlessStatusCode_service_error_witness :
  ∃ resp2 w2 e',
    WithErrorUnlessStatusCode [http.StatusOK] baseResponder
      (sample.plainResponse 409) (storeOf sample.errorBody)
      = (resp2, w2, Some (RequestErrorPtr e'))
    ∧ RequestError.ServiceError e'
      = Some (ServiceError.mk "Conflict" (bytesString sample.errorBody))
    ∧ ServiceError.Code <$> RequestError.ServiceError e' = Some "Conflict"
    ∧ ServiceError.Message <$> RequestError.ServiceError e'
      = Some (bytesString sample.errorBody)
    ∧ RequestError.RequestID e' = "req-1"
    ∧ DetailedError.StatusCode (RequestError.Detailed e') = 409.
Proof.
  exact (WithErrorUnlessStatusCode_service_error [http.StatusOK] baseResponder
           (sample.plainResponse 409) (storeOf sample.errorBody)
           (sample.plainResponse 409) (storeOf sample.errorBody)
           (NetBody sample.errorBody false) _
           (ServiceError.mk "Conflict" (bytesString sample.errorBody))
           eq_refl conflict_not_ok eq_refl eq_refl eq_refl eq_refl).
Defined.

Definition htmlBody : list byte := list_byte_of_string "<html>Bad Gateway</html>".

Lemma WithErrorUnlessStatusCode_not_parsed_witness :
  ∃ resp2 w2 err,
    WithErrorUnlessStatusCode [http.StatusOK] baseResponder
      (sample.plainResponse 409) (storeOf htmlBody) = (resp2, w2, Some err)
    ∧ err = Errorf "autorest/azure: error response cannot be parsed: %q error: %v"
              [ArgString "<html>Bad Gateway</html>"; ArgError None]
    ∧ IsAzureError (Some err) = false.
Proof.
  apply (WithErrorUnlessStatusCode_not_parsed [http.StatusOK] baseResponder
           (sample.plainResponse 409) (storeOf htmlBody)
           (sample.plainResponse 409) (storeOf htmlBody)
           (NetBody htmlBody false) eq_refl conflict_not_ok eq_refl).
  right. left. discriminate.
Defined.

Lemma WithErrorUnlessStatusCode_replaces_body_witness :
  ∃ resp2 w2 err,
    WithErrorUnlessStatusCode [http.StatusOK] baseResponder
      (sample.plainResponse 409) (storeOf htmlBody) = (resp2, w2, Some err)
    ∧ w2 !! Body resp2 = Some (NopCloser htmlBody)
    ∧ w2 !! 0%nat = Some (NetBody [] true).
Proof.
  destruct (WithErrorUnlessStatusCode_replaces_body [http.StatusOK] baseResponder
              (sample.plainResponse 409) (storeOf htmlBody)
              (sample.plainResponse 409) (storeOf htmlBody)
              (NetBody htmlBody false) eq_refl conflict_not_ok eq_refl)
    as (resp2 & w2 & err & Hrun & _ & _ & _ & Hopen & _).
  exists resp2, w2, err. split; [exact Hrun |]. exact (Hopen htmlBody eq_refl).
Defined.

(** An inner responder that fails with a pointer to the [RequestError]
    that [NewErrorWithError] makes for a plain error. *)
Definition timedOut : RequestError :=
  NewErrorWithError (Some (errorString "timeout")) "azure" "Respond" None "failed" [].

Definition failingWithRequestError : Responder :=
  fun resp w => (resp, w, Some (RequestErrorPtr timedOut)).

Lemma Error_needs_ServiceError_witness :
  (∀ resp2 w2 e,
     WithErrorUnlessStatusCode [http.StatusOK] baseResponder
       (sample.plainResponse 409) (storeOf sample.errorBody)
       = (resp2, w2, Some (RequestErrorPtr e)) →
     RequestError.ServiceError e ≠ None ∧ Error e ≠ None)
  ∧ WithErrorUnlessStatusCode [http.StatusOK] failingWithRequestError
      (sample.plainResponse 409) (storeOf sample.errorBody)
    = (sample.plainResponse 409, storeOf sample.errorBody,
       Some (RequestErrorPtr timedOut))
  ∧ Error (NewErrorWithError (Some (errorString "timeout")) "azure" "Poll" None
             "failed" []) = None.
Proof.
  split; [| split].
  - intros resp2 w2 e.
    exact (proj1 (proj2 Error_needs_ServiceError) [http.StatusOK] baseResponder
             (sample.plainResponse 409) (storeOf sample.errorBody)
             (sample.plainResponse 409) (storeOf sample.errorBody) resp2 w2 e eq_refl).
  - exact (proj1 (proj2 (proj2 Error_needs_ServiceError)) [http.StatusOK]
             failingWithRequestError
             (sample.plainResponse 409) (storeOf sample.errorBody)
             (sample.plainResponse 409) (storeOf sample.errorBody)
             (RequestErrorPtr timedOut) eq_refl).
  - apply (proj1 (proj2 (proj2 (proj2 Error_needs_ServiceError)))
             (Some (errorString "timeout")) "azure" "Poll" None "failed" []).
    intros v. discriminate.
Defined.

(** C10 as stated fails: the responder returns the [RequestError] of an
    inner responder as it is, and that one may lack a [ServiceError].  Here
    the inner responder fails with the [RequestError] that
    [NewErrorWithError] made for a timeout; the responder returns it, its
    [ServiceError] is nil, and [Error] panics on it. *)
Lemma returned_RequestError_without_ServiceError :
  (WithErrorUnlessStatusCode [http.StatusOK] failingWithRequestError
     (sample.plainResponse 409) (storeOf sample.errorBody)).2
  = Some (RequestErrorPtr timedOut)
  ∧ RequestError.ServiceError timedOut = None
  ∧ Error timedOut = None.
Proof. repeat split. Qed.

(** A 409 with an HTML body: the stream is drained and closed, and the copy
    is the second stream of the store. *)
Example not_parsed_run :
  WithErrorUnlessStatusCode [http.StatusOK] baseResponder
    (sample.plainResponse 409) (storeOf htmlBody)
  = (withBody (sample.plainResponse 409) 1,
     [NetBody [] true; NopCloser htmlBody],
     Some (errorString "autorest/azure: error response cannot be parsed: %q error: %v")).
Proof. vm_compute. reflexivity. Qed.

End responder.

(** ** The poll request *)

Module poll_request.

Import http autorest azure.

Lemma Close_lookup ref (w : Store) s :
  w !! ref = Some s → Close ref w !! ref = Some (closeStream s).
Proof.
  intros Hs. unfold Close. rewrite Hs.
  apply list_lookup_insert_eq. by eapply lookup_lt_Some.
Qed.

Lemma Close_lookup_other ref (w : Store) k :
  k ≠ ref → Close ref w !! k = w !! k.
Proof.
  intros Hk. unfold Close. destruct (w !! ref); [| done].
  by apply list_lookup_insert_ne.
Qed.

(** The request that [NewAsyncPollingRequest] builds for a location. *)
Definition pollRequest (location : string) : Request :=
  {| Method := "GET"; URL := Some location; ReqHeader := ∅; Cancel := None |}.

Section WithStdlib.
Context `{GoStdlib}.

Lemma Prepare_poll location :
  url_Parse_ok location = true →
  Prepare emptyRequest [AsGet; WithBaseURL location] = (pollRequest location, None).
Proof.
  intros Hok. unfold Prepare, CreatePreparer, DecoratePreparer. simpl.
  unfold WithBaseURL, AsGet. by rewrite Hok.
Qed.

(** C5. On a response whose [Azure-AsyncOperation] header is absent or
    empty, [NewAsyncPollingRequest] returns a nil request and the
    missing-header error, and leaves the response and every stream,
    hence the body, as they were.  On a response with a non-empty
    header whose location is a URL, it returns, without error, a GET
    request for that location, and closes the body of the response
    after the inspector of the client has seen it; for a client without
    an inspector that is the body the response came with. *)
Theorem NewAsyncPollingRequest_spec :
  (∀ resp c w,
     GetAsyncOperation resp = "" →
     NewAsyncPollingRequest resp c w =
       (None,
        Some (NewErrorWithResponse "azure" "NewAsyncPollingRequest" (Some resp)
                "Azure-AsyncOperation header missing from response that requires polling"
                []),
        resp, w))
  ∧ (∀ resp c w location,
       GetAsyncOperation resp = location →
       location ≠ "" →
       url_Parse_ok location = true →
       ∃ resp1 w1 err1 w2,
         ByInspecting c baseResponder resp w = (resp1, w1, err1)
         ∧ NewAsyncPollingRequest resp c w
           = (Some (pollRequest location), None, resp1, w2)
         ∧ w2 = Close (Body resp1) w1
         ∧ (∀ s, w1 !! Body resp1 = Some s →
                 w2 !! Body resp1 = Some (closeStream s))
         ∧ (ResponseInspector c = None →
            resp1 = resp
            ∧ ∀ u c', w !! Body resp = Some (NetBody u c') →
                      w2 !! Body resp = Some (NetBody u true))).
Proof.
  split.
  - intros resp c w Hloc. unfold NewAsyncPollingRequest. by rewrite Hloc.
  - intros resp c w location Hloc Hne Hok.
    unfold NewAsyncPollingRequest. rewrite Hloc.
    destruct (String.eqb_spec location "") as [| _]; [done |].
    rewrite (Prepare_poll _ Hok).
    unfold Respond, DecorateResponder. simpl. unfold ByClosing at 1.
    destruct (ByInspecting c baseResponder resp w) as [[resp1 w1] err1] eqn:Hins.
    exists resp1, w1, err1, (Close (Body resp1) w1).
    split; [reflexivity |]. split; [reflexivity |]. split; [reflexivity |].
    split; [intros s; apply Close_lookup |].
    intros Hnone. unfold ByInspecting in Hins. rewrite Hnone in Hins.
    injection Hins as <- <- _. split; [reflexivity |].
    intros u c' Hs. by rewrite (Close_lookup _ _ _ Hs).
Qed.

End WithStdlib.

#[local] Existing Instance sample.stdlib.

Definition defaultClient : Client := {| ResponseInspector := None |}.

Lemma NewAsyncPollingRequest_spec_witness :
  NewAsyncPollingRequest (sample.plainResponse 201) defaultClient
    [NetBody sample.errorBody false]
  = (None,
     Some (NewErrorWithResponse "azure" "NewAsyncPollingRequest"
             (Some (sample.plainResponse 201))
             "Azure-AsyncOperation header missing from response that requires polling"
             []),
     sample.plainResponse 201, [NetBody sample.errorBody false])
  ∧ ∃ resp1 w1 err1 w2,
      ByInspecting defaultClient baseResponder sample.createdResponse
        [NetBody sample.errorBody false] = (resp1, w1, err1)
      ∧ NewAsyncPollingRequest sample.createdResponse defaultClient
          [NetBody sample.errorBody false]
        = (Some (pollRequest sample.pollURL), None, resp1, w2)
      ∧ w2 = Close (Body resp1) w1
      ∧ (∀ s, w1 !! Body resp1 = Some s → w2 !! Body resp1 = Some (closeStream s))
      ∧ (ResponseInspector defaultClient = None →
         resp1 = sample.createdResponse
         ∧ ∀ u c', ([NetBody sample.errorBody false] : Store)
                     !! Body sample.createdResponse = Some (NetBody u c') →
                   w2 !! Body sample.createdResponse = Some (NetBody u true)).
Proof.
  split.
  - exact (proj1 NewAsyncPollingRequest_spec (sample.plainResponse 201) defaultClient
             [NetBody sample.errorBody false] eq_refl).
  - apply (proj2 NewAsyncPollingRequest_spec sample.createdResponse defaultClient
             [NetBody sample.errorBody false] sample.pollURL eq_refl);
      [discriminate | reflexivity].
Defined.

(** The body of a 201 with the header is closed, unread. *)
Example poll_request_run :
  NewAsyncPollingRequest sample.createdResponse defaultClient
    [NetBody sample.errorBody false]
  = (Some (pollRequest sample.pollURL), None, sample.createdResponse,
     [NetBody sample.errorBody true]).
Proof. vm_compute. reflexivity. Qed.

End poll_request.

(** ** The polling loop *)

Module polling.

Import http autorest azure.

(** A sender that counts the calls of the sender it wraps. *)
Definition counting {T : Type} (s : Sender T) : Sender (T * nat) :=
  fun r '(st, n) => let '(res, st) := s r st in (res, (st, S n)).

(** A sender that yields the responses of a script, one per call, and
    fails when the script is at its end. *)
Definition scripted : Sender (list Response) :=
  fun _ script =>
    match script with
    | resp :: rest => (DoResp resp, rest)
    | [] => (DoFail None (errorString "no response"), [])
    end.

Section Loop.
Context {E T : Type}.
Variable GetPollingDelay : Response -> Z -> Z.
Variable DelayForBackoff : Z -> Z -> option nat -> E -> option error * E.
Variable defaultDelay : Z.
Variable s : Sender T.
Variable r : Request.

Abbreviation loop := (pollLoop GetPollingDelay DelayForBackoff).

(** The loop ends at a response that is not long-running. *)
Lemma pollLoop_done fuel resp st env :
  ResponseIsLongRunning resp = false →
  loop fuel defaultDelay s r (DoResp resp) st env = Some (DoResp resp, st, env).
Proof. intros Hdone. destruct fuel; simpl; by rewrite Hdone. Qed.

(** The loop ends at a transport error. *)
Lemma pollLoop_fail fuel resp err st env :
  loop fuel defaultDelay s r (DoFail resp err) st env
  = Some (DoFail resp err, st, env).
Proof. by destruct fuel. Qed.

(** One turn of the loop: a delay that is not cancelled, then a send. *)
Lemma pollLoop_step fuel resp st env env' res st' :
  ResponseIsLongRunning resp = true →
  DelayForBackoff (GetPollingDelay resp defaultDelay) 1 (Cancel r) env = (None, env') →
  s r st = (res, st') →
  loop (S fuel) defaultDelay s r (DoResp resp) st env
  = loop fuel defaultDelay s r res st' env'.
Proof. intros Hlong Hdelay Hsend. simpl. by rewrite Hlong, Hdelay, Hsend. Qed.

(** A cancelled delay ends the loop with the cancellation error. *)
Lemma pollLoop_cancel fuel resp st env env' err :
  ResponseIsLongRunning resp = true →
  DelayForBackoff (GetPollingDelay resp defaultDelay) 1 (Cancel r) env
    = (Some err, env') →
  loop (S fuel) defaultDelay s r (DoResp resp) st env
  = Some (DoFail (Some resp) err, st, env').
Proof. intros Hlong Hdelay. simpl. by rewrite Hlong, Hdelay. Qed.

End Loop.

(** C3. Let the base sender answer three successive calls with the
    responses [r1], [r2] and [r3] and no error, the first two long-running
    and the third not, and let neither delay be cancelled.  Then the
    sender of [WithAsyncPolling] returns [r3] with a nil error, and it has
    called the base sender exactly three times: the call counter stands
    at three and the transport is in the state after the third call.  The
    loop needs two iterations. *)
Theorem WithAsyncPolling_three_requests {E T : Type}
    (GetPollingDelay : Response -> Z -> Z)
    (DelayForBackoff : Z -> Z -> option nat -> E -> option error * E)
    (defaultDelay : Z) (s : Sender T) (r : Request)
    (st0 st1 st2 st3 : T) (env0 env1 env2 : E) (r1 r2 r3 : Response) (fuel : nat) :
  s r st0 = (DoResp r1, st1) →
  s r st1 = (DoResp r2, st2) →
  s r st2 = (DoResp r3, st3) →
  ResponseIsLongRunning r1 = true →
  ResponseIsLongRunning r2 = true →
  ResponseIsLongRunning r3 = false →
  DelayForBackoff (GetPollingDelay r1 defaultDelay) 1 (Cancel r) env0 = (None, env1) →
  DelayForBackoff (GetPollingDelay r2 defaultDelay) 1 (Cancel r) env1 = (None, env2) →
  (2 ≤ fuel)%nat →
  WithAsyncPolling GetPollingDelay DelayForBackoff fuel defaultDelay (counting s) r
    (st0, 0%nat) env0
  = Some (DoResp r3, (st3, 3%nat), env2).
Proof.
  intros H1 H2 H3 L1 L2 L3 D1 D2 Hfuel.
  destruct fuel as [| [| fuel]]; [lia | lia |].
  unfold WithAsyncPolling. simpl counting. rewrite H1.
  rewrite (pollLoop_step _ _ _ _ _ _ _ _ _ _ (DoResp r2) (st2, 2%nat) L1 D1)
    by (simpl; by rewrite H2).
  rewrite (pollLoop_step _ _ _ _ _ _ _ _ _ _ (DoResp r3) (st3, 3%nat) L2 D2)
    by (simpl; by rewrite H3).
  by apply pollLoop_done.
Qed.

(** Delays of the example: the default delay, never cancelled. *)
Definition defaultOnly (_ : Response) (d : Z) : Z := d.
Definition neverCancelled (_ _ : Z) (_ : option nat) (e : unit) : option error * unit :=
  (None, e).

Lemma WithAsyncPolling_three_requests_witness :
  WithAsyncPolling defaultOnly neverCancelled 2 1000000000 (counting scripted)
    emptyRequest
    ([sample.createdResponse; sample.createdResponse; sample.okResponse], 0%nat) tt
  = Some (DoResp sample.okResponse, ([], 3%nat), tt).
Proof.
  exact (WithAsyncPolling_three_requests defaultOnly neverCancelled 1000000000
           scripted emptyRequest
           [sample.createdResponse; sample.createdResponse; sample.okResponse]
           [sample.createdResponse; sample.okResponse] [sample.okResponse] []
           tt tt tt sample.createdResponse sample.createdResponse sample.okResponse 2
           eq_refl eq_refl eq_refl eq_refl eq_refl eq_refl eq_refl eq_refl (le_n 2)).
Defined.

(** A cancellation during the first delay: one request, and the
    cancellation error with the response of that request. *)
Example cancelled_run :
  WithAsyncPolling defaultOnly
    (fun _ _ _ (e : unit) => (Some (errorString "cancelled"), e)) 5 1000000000
    (counting scripted) emptyRequest
    ([sample.createdResponse; sample.okResponse], 0%nat) tt
  = Some (DoFail (Some sample.createdResponse) (errorString "cancelled"),
          ([sample.okResponse], 1%nat), tt).
Proof. vm_compute. reflexivity. Qed.

End polling.

(** ** More on the request-ID decorators *)

Module client_id.

Import http autorest azure.

(** The header map after [WithReturningClientID]. *)
Definition returningHeader (uuid : string) (h : Header) : Header :=
  <["X-Ms-Return-Client-Request-Id" := ["true"]]>
    (<["X-Ms-Client-Request-Id" := [uuid]]> h).

Lemma WithReturningClientID_ok uuid (p : Preparer) r r1 :
  p r = (r1, None) →
  WithReturningClientID uuid p r =
    ({| Method := Method r1; URL := URL r1;
        ReqHeader := returningHeader uuid (ReqHeader r1);
        Cancel := Cancel r1 |}, None).
Proof. intros Hp. unfold WithReturningClientID. rewrite Hp. reflexivity. Qed.

(** X1. [WithReturningClientID uuid], around a preparer that succeeds, sets
    [x-ms-client-request-id] to the identifier and
    [x-ms-return-client-request-id] to [true]; every other header, the
    method, the URL and the cancellation channel stay as the wrapped
    preparer left them. *)
Theorem WithReturningClientID_sets_both uuid (p : Preparer) r r1 :
  p r = (r1, None) →
  ∃ r2,
    WithReturningClientID uuid p r = (r2, None)
    ∧ Get (ReqHeader r2) HeaderClientID = uuid
    ∧ Get (ReqHeader r2) HeaderReturnClientID = "true"
    ∧ (∀ k, k ≠ "X-Ms-Client-Request-Id" → k ≠ "X-Ms-Return-Client-Request-Id" →
            ReqHeader r2 !! k = ReqHeader r1 !! k)
    ∧ dom (ReqHeader r2)
      = {["X-Ms-Client-Request-Id"; "X-Ms-Return-Client-Request-Id"]} ∪ dom (ReqHeader r1)
    ∧ Method r2 = Method r1 ∧ URL r2 = URL r1 ∧ Cancel r2 = Cancel r1.
Proof.
  intros Hp. rewrite (WithReturningClientID_ok _ _ _ _ Hp).
  eexists. split; [reflexivity |]. simpl. unfold returningHeader.
  split.
  { unfold Get. change (CanonicalHeaderKey HeaderClientID) with "X-Ms-Client-Request-Id".
    rewrite lookup_insert_ne by done. by rewrite lookup_insert_eq. }
  split.
  { unfold Get.
    change (CanonicalHeaderKey HeaderReturnClientID) with "X-Ms-Return-Client-Request-Id".
    by rewrite lookup_insert_eq. }
  split.
  { intros k Hk1 Hk2. by rewrite !lookup_insert_ne. }
  split; [| done].
  rewrite !dom_insert_L. apply set_eq. intros k.
  rewrite !elem_of_union, !elem_of_singleton. tauto.
Qed.

Lemma WithReturningClientID_sets_both_witness :
  ∃ r2,
    WithReturningClientID "0F39878C" (fun r => (r, None)) request_id.putRequest
      = (r2, None)
    ∧ Get (ReqHeader r2) HeaderClientID = "0F39878C"
    ∧ Get (ReqHeader r2) HeaderReturnClientID = "true"
    ∧ (∀ k, k ≠ "X-Ms-Client-Request-Id" → k ≠ "X-Ms-Return-Client-Request-Id" →
            ReqHeader r2 !! k = ReqHeader request_id.putRequest !! k)
    ∧ dom (ReqHeader r2)
      = {["X-Ms-Client-Request-Id"; "X-Ms-Return-Client-Request-Id"]}
        ∪ dom (ReqHeader request_id.putRequest)
    ∧ Method r2 = Method request_id.putRequest
    ∧ URL r2 = URL request_id.putRequest
    ∧ Cancel r2 = Cancel request_id.putRequest.
Proof.
  exact (WithReturningClientID_sets_both "0F39878C" (fun r => (r, None))
           request_id.putRequest request_id.putRequest eq_refl).
Defined.

(** X2. When the wrapped preparer fails, [WithReturningClientID] returns its
    request and its error as they are: neither header is set. *)
Theorem WithReturningClientID_failure uuid (p : Preparer) r r1 err :
  p r = (r1, Some err) →
  WithReturningClientID uuid p r = (r1, Some err)
  ∧ ReqHeader (WithReturningClientID uuid p r).1 = ReqHeader r1.
Proof. intros Hp. unfold WithReturningClientID. by rewrite Hp. Qed.

Lemma WithReturningClientID_failure_witness :
  WithReturningClientID "0F39878C"
    (fun r => (r, Some (errorString "no credentials"))) request_id.putRequest
  = (request_id.putRequest, Some (errorString "no credentials"))
  ∧ ReqHeader (WithReturningClientID "0F39878C"
                 (fun r => (r, Some (errorString "no credentials")))
                 request_id.putRequest).1
    = ReqHeader request_id.putRequest.
Proof.
  exact (WithReturningClientID_failure "0F39878C"
           (fun r => (r, Some (errorString "no credentials")))
           request_id.putRequest request_id.putRequest
           (errorString "no credentials") eq_refl).
Defined.

(** X3. [WithReturningClientID uuid] does what [WithClientID uuid] followed
    by [WithReturnClientID true] does, on every preparer and request,
    whether the wrapped preparer succeeds or fails. *)
Theorem WithReturningClientID_composes uuid (p : Preparer) r :
  WithReturningClientID uuid p r
  = WithReturnClientID true (WithClientID uuid p) r.
Proof.
  unfold WithReturningClientID, WithReturnClientID, WithClientID, WithHeader.
  unfold CreatePreparer, DecoratePreparer. simpl.
  destruct (p r) as [r1 [err |]]; reflexivity.
Qed.

(** X4. The identifier that [WithClientID] writes is the one that
    [ExtractClientID] reads: on a response that carries the headers of the
    prepared request, [ExtractClientID] returns the identifier. *)
Theorem ExtractClientID_WithClientID uuid (p : Preparer) r r1 r2 resp :
  p r = (r1, None) →
  WithClientID uuid p r = (r2, None) →
  RespHeader resp = ReqHeader r2 →
  ExtractClientID resp = uuid.
Proof.
  intros Hp Hrun Hecho. unfold WithClientID, WithHeader in Hrun.
  rewrite Hp in Hrun. injection Hrun as <-.
  unfold ExtractClientID, ExtractHeaderValue. rewrite Hecho. simpl.
  apply request_id.Get_Set.
Qed.

Lemma ExtractClientID_WithClientID_witness :
  ExtractClientID
    {| StatusCode := 200;
       RespHeader := (WithClientID "0F39878C" (fun r => (r, None))
                        request_id.putRequest).1.(ReqHeader);
       Body := 0 |}
  = "0F39878C".
Proof.
  exact (ExtractClientID_WithClientID "0F39878C" (fun r => (r, None))
           request_id.putRequest request_id.putRequest
           (WithClientID "0F39878C" (fun r => (r, None)) request_id.putRequest).1
           {| StatusCode := 200;
              RespHeader := (WithClientID "0F39878C" (fun r => (r, None))
                               request_id.putRequest).1.(ReqHeader);
              Body := 0 |}
           eq_refl eq_refl eq_refl).
Defined.

End client_id.

(** ** More on the error-translating responder *)

Module responder_more.

Import http autorest azure responder.

Section WithStdlib.
Context `{GoStdlib}.

Lemma unless_failed codes (r : Responder) resp w resp1 w1 err :
  r resp w = (resp1, w1, Some err) →
  WithErrorUnlessStatusCode codes r resp w = (resp1, w1, Some err).
Proof. intros Hr. unfold WithErrorUnlessStatusCode. by rewrite Hr. Qed.

(** Outside the codes the responder returns an error, whatever the store
    holds for the body. *)
Lemma outside_is_error codes (r : Responder) resp w resp1 w1 :
  r resp w = (resp1, w1, None) →
  StatusCode resp1 ∉ codes →
  ∃ err, (WithErrorUnlessStatusCode codes r resp w).2 = Some err.
Proof.
  intros Hr Hout. destruct (w1 !! Body resp1) as [s |] eqn:Hs.
  - rewrite (unless_outside _ _ _ _ _ _ _ Hr Hout Hs). simpl. by eexists.
  - unfold WithErrorUnlessStatusCode. rewrite Hr.
    unfold ResponseHasStatusCode. rewrite bool_decide_eq_false_2 by exact Hout.
    simpl. unfold CopyAndDecode, readAll. rewrite Hs. simpl. by eexists.
Qed.

(** X5. An error of the inner responder is returned as it is, whatever the
    status code: the responder hands back the response and the streams as
    the inner responder left them and does not read the body. *)
Theorem WithErrorUnlessStatusCode_inner_error codes (r : Responder)
    resp w resp1 w1 err :
  r resp w = (resp1, w1, Some err) →
  WithErrorUnlessStatusCode codes r resp w = (resp1, w1, Some err)
  ∧ WithErrorUnlessStatusCode [] r resp w = (resp1, w1, Some err).
Proof. intros Hr. split; by apply unless_failed. Qed.

(** X6. The responder returns no error exactly when the inner responder
    returned none and the status code is among the codes: outside the codes
    it always returns an error, as its documentation says. *)
Theorem WithErrorUnlessStatusCode_nil_iff codes (r : Responder)
    resp w resp1 w1 err1 :
  r resp w = (resp1, w1, err1) →
  (WithErrorUnlessStatusCode codes r resp w).2 = None
  ↔ err1 = None ∧ StatusCode resp1 ∈ codes.
Proof.
  intros Hr. destruct err1 as [err1 |].
  { rewrite (unless_failed _ _ _ _ _ _ _ Hr). simpl. split; [done | by intros [? _]]. }
  destruct (decide (StatusCode resp1 ∈ codes)) as [Hin | Hout].
  - rewrite (unless_inside _ _ _ _ _ _ Hr Hin). done.
  - destruct (outside_is_error _ _ _ _ _ _ Hr Hout) as [err ->].
    split; [done | by intros [_ ?]].
Qed.

(** X7. After the responder replaced the body, the new body can be read:
    reading it to its end gives the bytes that were read from the old body,
    without error; and closing it changes nothing, so it needs no further
    closing. *)
Theorem replaced_body_readable codes (r : Responder) resp w resp1 w1 s resp2 w2 err :
  r resp w = (resp1, w1, None) →
  StatusCode resp1 ∉ codes →
  w1 !! Body resp1 = Some s →
  WithErrorUnlessStatusCode codes r resp w = (resp2, w2, err) →
  (readAll (Body resp2) w2).1 = (unreadBytes s, None)
  ∧ Close (Body resp2) w2 = w2.
Proof.
  intros Hr Hout Hs Hrun.
  rewrite (unless_outside _ _ _ _ _ _ _ Hr Hout Hs) in Hrun.
  injection Hrun as <- <- _. simpl. unfold decodedStore.
  assert ((<[Body resp1 := closeStream (drained s)]> w1
             ++ [NopCloser (unreadBytes s)])%list !! List.length w1
          = Some (NopCloser (unreadBytes s))) as Hnew.
  { rewrite lookup_app_r by (rewrite length_insert; lia).
    rewrite length_insert, Nat.sub_diag. reflexivity. }
  split.
  - unfold readAll. rewrite Hnew. reflexivity.
  - unfold Close. rewrite Hnew. simpl. by apply list_insert_id.
Qed.

(** X8. Decorating twice with the same codes is decorating once. *)
Theorem WithErrorUnlessStatusCode_twice codes (r : Responder) resp w :
  WithErrorUnlessStatusCode codes (WithErrorUnlessStatusCode codes r) resp w
  = WithErrorUnlessStatusCode codes r resp w.
Proof.
  destruct (r resp w) as [[resp1 w1] [err1 |]] eqn:Hr.
  { rewrite (unless_failed codes r _ _ _ _ _ Hr).
    apply unless_failed. by apply unless_failed. }
  destruct (decide (StatusCode resp1 ∈ codes)) as [Hin | Hout].
  - rewrite (unless_inside _ r _ _ _ _ Hr Hin).
    apply unless_inside; [| exact Hin]. by apply unless_inside.
  - destruct (outside_is_error _ _ _ _ _ _ Hr Hout) as [err Herr].
    destruct (WithErrorUnlessStatusCode codes r resp w) as [[resp2 w2] err2] eqn:Hrun.
    simpl in Herr. subst err2. by apply unless_failed.
Qed.

(** X9. For a response that the inner responder accepted and whose status
    is not among the codes, the returned error is an Azure error, as
    [IsAzureError] tells, exactly when the body could be read and decoded
    without error into a value with a service error. *)
Theorem IsAzureError_iff_decoded codes (r : Responder) resp w resp1 w1 s :
  r resp w = (resp1, w1, None) →
  StatusCode resp1 ∉ codes →
  w1 !! Body resp1 = Some s →
  IsAzureError (WithErrorUnlessStatusCode codes r resp w).2 = true
  ↔ isClosed s = false
    ∧ (Decode EncodedAsJSON (unreadBytes s) zeroRequestError).2 = None
    ∧ RequestError.ServiceError
        (Decode EncodedAsJSON (unreadBytes s) zeroRequestError).1 ≠ None.
Proof.
  intros Hr Hout Hs. rewrite (unless_outside _ _ _ _ _ _ _ Hr Hout Hs). simpl.
  unfold decoded. destruct (isClosed s).
  { rewrite bool_decide_eq_true_2 by (by left). simpl. split; [done | by intros [? _]]. }
  case_bool_decide as Hd; simpl.
  - split; [done |]. intros (_ & Hok & Hse). destruct Hd as [Hd | Hd]; done.
  - split; [| done]. intros _. split; [done |].
    split.
    + destruct ((Decode EncodedAsJSON (unreadBytes s) zeroRequestError).2) eqn:He;
        [| done]. exfalso. apply Hd. by left.
    + intros Hn. apply Hd. by right.
Qed.

(** X10. The message of the [RequestError] that the responder returns is
    formatted from the decoded code, the decoded message and the status
    code of the response, whatever status the decoded value carried. *)
Theorem returned_error_message codes (r : Responder) resp w resp1 w1 s e se :
  r resp w = (resp1, w1, None) →
  StatusCode resp1 ∉ codes →
  w1 !! Body resp1 = Some s →
  isClosed s = false →
  Decode EncodedAsJSON (unreadBytes s) zeroRequestError = (e, None) →
  RequestError.ServiceError e = Some se →
  ∃ e',
    (WithErrorUnlessStatusCode codes r resp w).2 = Some (RequestErrorPtr e')
    ∧ Error e'
      = Some (Sprintf "azure: Service returned an error. Code=%q Message=%q Status=%d"
                [ArgString (ServiceError.Code se); ArgString (ServiceError.Message se);
                 ArgInt (StatusCode resp1)])
    ∧ DetailedError.Original (RequestError.Detailed e')
      = DetailedError.Original (RequestError.Detailed e)
    ∧ DetailedError.Message (RequestError.Detailed e')
      = DetailedError.Message (RequestError.Detailed e).
Proof.
  intros Hr Hout Hs Hopen Hdec Hse.
  rewrite (unless_outside _ _ _ _ _ _ _ Hr Hout Hs).
  assert (decoded s = (e, None)) as Hd by (unfold decoded; by rewrite Hopen).
  rewrite Hd. simpl.
  rewrite bool_decide_eq_false_2
    by (intros [Hn | Hn]; [done | by rewrite Hse in Hn]).
  eexists. split; [reflexivity |]. unfold Error. simpl. by rewrite Hse.
Qed.

Lemma NewErrorWithError_idempotent original packageType method resp message args
    packageType' method' resp' message' args' :
  NewErrorWithError
    (Some (RequestErrorPtr
             (NewErrorWithError original packageType method resp message args)))
    packageType' method' resp' message' args'
  = NewErrorWithError original packageType method resp message args.
Proof. reflexivity. Qed.

(** X11. [IsAzureError] tells which way [NewErrorWithError] goes.  An
    original error that is an Azure error is returned as it is, whatever
    the other arguments.  For any other original error, nil included, the
    result records the original error and the status code of the response,
    or [UndefinedStatusCode] when the response is nil, and has an empty
    request ID and no service error. *)
Theorem NewErrorWithError_by_IsAzureError original packageType method resp message args :
  (IsAzureError original = true →
   original = Some (RequestErrorPtr
                      (NewErrorWithError original packageType method resp message args)))
  ∧ (IsAzureError original = false →
     NewErrorWithError original packageType method resp message args
     = RequestError.mk
         (DetailedError.mk original packageType method
            (from_option StatusCode UndefinedStatusCode resp) (Sprintf message args))
         None "").
Proof.
  unfold NewErrorWithError.
  destruct original as [[v | d | m] |]; split; intros Hq; try discriminate;
    try reflexivity; by destruct resp.
Qed.

End WithStdlib.

#[local] Existing Instance sample.stdlib.

Definition failing : Responder :=
  fun resp w => (resp, w, Some (errorString "unexpected EOF")).

Lemma WithErrorUnlessStatusCode_inner_error_witness :
  WithErrorUnlessStatusCode [http.StatusOK] failing
    (sample.plainResponse 409) (storeOf htmlBody)
  = (sample.plainResponse 409, storeOf htmlBody, Some (errorString "unexpected EOF"))
  ∧ WithErrorUnlessStatusCode [] failing
      (sample.plainResponse 409) (storeOf htmlBody)
    = (sample.plainResponse 409, storeOf htmlBody, Some (errorString "unexpected EOF")).
Proof.
  exact (WithErrorUnlessStatusCode_inner_error [http.StatusOK] failing
           (sample.plainResponse 409) (storeOf htmlBody)
           (sample.plainResponse 409) (storeOf htmlBody)
           (errorString "unexpected EOF") eq_refl).
Defined.

Lemma WithErrorUnlessStatusCode_nil_iff_witness :
  (WithErrorUnlessStatusCode [http.StatusOK] baseResponder
     (sample.plainResponse 200) (storeOf htmlBody)).2 = None
  ↔ (None : option error) = None ∧ (200 : Z) ∈ [http.StatusOK].
Proof.
  exact (WithErrorUnlessStatusCode_nil_iff [http.StatusOK] baseResponder
           (sample.plainResponse 200) (storeOf htmlBody)
           (sample.plainResponse 200) (storeOf htmlBody) None eq_refl).
Defined.

Lemma replaced_body_readable_witness :
  (readAll 1 [NetBody [] true; NopCloser htmlBody]).1 = (htmlBody, None)
  ∧ Close 1 [NetBody [] true; NopCloser htmlBody]
    = [NetBody [] true; NopCloser htmlBody].
Proof.
  exact (replaced_body_readable [http.StatusOK] baseResponder
           (sample.plainResponse 409) (storeOf htmlBody)
           (sample.plainResponse 409) (storeOf htmlBody) (NetBody htmlBody false)
           (withBody (sample.plainResponse 409) 1)
           [NetBody [] true; NopCloser htmlBody] _
           eq_refl conflict_not_ok eq_refl not_parsed_run).
Defined.

Lemma IsAzureError_iff_decoded_witness :
  IsAzureError (WithErrorUnlessStatusCode [http.StatusOK] baseResponder
                  (sample.plainResponse 409) (storeOf sample.errorBody)).2 = true
  ↔ false = false
    ∧ (Decode EncodedAsJSON sample.errorBody zeroRequestError).2 = None
    ∧ RequestError.ServiceError
        (Decode EncodedAsJSON sample.errorBody zeroRequestError).1 ≠ None.
Proof.
  exact (IsAzureError_iff_decoded [http.StatusOK] baseResponder
           (sample.plainResponse 409) (storeOf sample.errorBody)
           (sample.plainResponse 409) (storeOf sample.errorBody)
           (NetBody sample.errorBody false) eq_refl conflict_not_ok eq_refl).
Defined.

Lemma returned_error_message_witness :
  ∃ e',
    (WithErrorUnlessStatusCode [http.StatusOK] baseResponder
       (sample.plainResponse 409) (storeOf sample.errorBody)).2
    = Some (RequestErrorPtr e')
    ∧ Error e'
      = Some (Sprintf "azure: Service returned an error. Code=%q Message=%q Status=%d"
                [ArgString "Conflict"; ArgString (bytesString sample.errorBody);
                 ArgInt 409])
    ∧ DetailedError.Original (RequestError.Detailed e') = None
    ∧ DetailedError.Message (RequestError.Detailed e') = "".
Proof.
  exact (returned_error_message [http.StatusOK] baseResponder
           (sample.plainResponse 409) (storeOf sample.errorBody)
           (sample.plainResponse 409) (storeOf sample.errorBody)
           (NetBody sample.errorBody false) _
           (ServiceError.mk "Conflict" (bytesString sample.errorBody))
           eq_refl conflict_not_ok eq_refl eq_refl eq_refl eq_refl).
Defined.

Lemma NewErrorWithError_by_IsAzureError_witness :
  NewErrorWithError (Some (errorString "timeout")) "azure" "Poll" None "failed" []
  = RequestError.mk
      (DetailedError.mk (Some (errorString "timeout")) "azure" "Poll"
         UndefinedStatusCode (Sprintf "failed" []))
      None ""
  ∧ Some (RequestErrorPtr zeroRequestError)
    = Some (RequestErrorPtr
              (NewErrorWithError (Some (RequestErrorPtr zeroRequestError)) "azure" "Poll"
                 (Some (sample.plainResponse 409)) "failed" [])).
Proof.
  split.
  - exact (proj2 (NewErrorWithError_by_IsAzureError (Some (errorString "timeout"))
                    "azure" "Poll" None "failed" []) eq_refl).
  - exact (proj1 (NewErrorWithError_by_IsAzureError
                    (Some (RequestErrorPtr zeroRequestError)) "azure" "Poll"
                    (Some (sample.plainResponse 409)) "failed" []) eq_refl).
Defined.

End responder_more.

(** ** More on the polling loop *)

Module polling_more.

Import http autorest azure polling.

(** A result at which the loop stops: an error, or a response that is not
    long-running. *)
Definition terminal (res : DoResult) : bool :=
  match res with
  | DoResp resp => negb (ResponseIsLongRunning resp)
  | DoFail _ _ => true
  end.

(** A sender that replays a script of results, one per call. *)
Definition replay : Sender (list DoResult) :=
  fun _ script =>
    match script with
    | res :: rest => (res, rest)
    | [] => (DoFail None (errorString "no response"), [])
    end.

Section Loop.
Context {E : Type}.
Variable GetPollingDelay : Response -> Z -> Z.
Variable DelayForBackoff : Z -> Z -> option nat -> E -> option error * E.
Variable defaultDelay : Z.

Abbreviation loop := (pollLoop GetPollingDelay DelayForBackoff).
Abbreviation polled := (WithAsyncPolling GetPollingDelay DelayForBackoff).

Lemma pollLoop_terminal {T : Type} fuel (s : Sender T) r res st env :
  terminal res = true →
  loop fuel defaultDelay s r res st env = Some (res, st, env).
Proof.
  intros Hterm. destruct res as [resp | resp err].
  - apply pollLoop_done. simpl in Hterm. by apply negb_true_iff.
  - apply pollLoop_fail.
Qed.

(** One turn of the loop, seen from the polling sender: after a delay
    that is not cancelled, the loop goes on as the polling sender does
    from the state it is in. *)
Lemma pollLoop_step_polled {T : Type} fuel (s : Sender T) r resp st env env' :
  ResponseIsLongRunning resp = true →
  DelayForBackoff (GetPollingDelay resp defaultDelay) 1 (Cancel r) env = (None, env') →
  loop (S fuel) defaultDelay s r (DoResp resp) st env
  = polled fuel defaultDelay s r st env'.
Proof.
  intros Hlong Hdelay. simpl. rewrite Hlong, Hdelay. unfold WithAsyncPolling.
  by destruct (s r st).
Qed.

(** X12. When the first call of the base sender returns an error, or a
    response that is not long-running, the polling sender returns that
    result after this one call, without any delay, whatever the bound on
    the iterations. *)
Theorem WithAsyncPolling_first_terminal {T : Type} fuel (s : Sender T) r res st st' env :
  s r st = (res, st') →
  terminal res = true →
  polled fuel defaultDelay (counting s) r (st, 0%nat) env
  = Some (res, (st', 1%nat), env).
Proof.
  intros Hsend Hterm. unfold WithAsyncPolling. simpl. rewrite Hsend.
  by apply pollLoop_terminal.
Qed.

(** X13. When the first response is long-running and the delay after it is
    cancelled, the polling sender returns the cancellation error together
    with that response, after exactly one call of the base sender. *)
Theorem WithAsyncPolling_cancelled {T : Type} fuel (s : Sender T) r resp st st'
    env env' err :
  s r st = (DoResp resp, st') →
  ResponseIsLongRunning resp = true →
  DelayForBackoff (GetPollingDelay resp defaultDelay) 1 (Cancel r) env = (Some err, env') →
  polled (S fuel) defaultDelay (counting s) r (st, 0%nat) env
  = Some (DoFail (Some resp) err, (st', 1%nat), env').
Proof.
  intros Hsend Hlong Hdelay. unfold WithAsyncPolling. simpl counting. rewrite Hsend.
  by apply pollLoop_cancel.
Qed.

(** The result of the loop is never a long-running response with a nil
    error. *)
Lemma pollLoop_result_terminal {T : Type} fuel (s : Sender T) r res st env out st' env' :
  loop fuel defaultDelay s r res st env = Some (out, st', env') →
  terminal out = true.
Proof.
  revert res st env. induction fuel as [| fuel IH]; intros res st env Hrun.
  - destruct res as [resp | resp err]; simpl in Hrun.
    + destruct (ResponseIsLongRunning resp) eqn:Hlong; [discriminate |].
      injection Hrun as <- _ _. simpl. by rewrite Hlong.
    + by injection Hrun as <- _ _.
  - destruct res as [resp | resp err]; simpl in Hrun.
    + destruct (ResponseIsLongRunning resp) eqn:Hlong.
      * destruct (DelayForBackoff _ _ _ env) as [[err |] env1].
        -- by injection Hrun as <- _ _.
        -- destruct (s r st) as [res1 st1]. by eapply IH.
      * injection Hrun as <- _ _. simpl. by rewrite Hlong.
    + by injection Hrun as <- _ _.
Qed.

(** X14. A response that the polling sender returns with a nil error is
    not long-running: the sender never hands back an operation that is
    still in progress as if it were done. *)
Theorem WithAsyncPolling_returns_done {T : Type} fuel (s : Sender T) r st env
    resp st' env' :
  polled fuel defaultDelay s r st env = Some (DoResp resp, st', env') →
  ResponseIsLongRunning resp = false.
Proof.
  unfold WithAsyncPolling. destruct (s r st) as [res st1]. intros Hrun.
  apply pollLoop_result_terminal in Hrun. simpl in Hrun.
  by apply negb_true_iff.
Qed.

Section NeverCancelled.
Hypothesis no_cancel :
  ∀ d attempt cancel env, (DelayForBackoff d attempt cancel env).1 = None.

Lemma replay_run longs res rest r :
  Forall (fun resp => ResponseIsLongRunning resp = true) longs →
  terminal res = true →
  ∀ fuel n env,
    (List.length longs ≤ fuel)%nat →
    ∃ env',
      polled fuel defaultDelay (counting replay) r
        ((DoResp <$> longs) ++ res :: rest, n)%list env
      = Some (res, (rest, (n + S (List.length longs))%nat), env').
Proof.
  intros Hlongs Hterm. induction Hlongs as [| resp longs Hlong _ IH];
    intros fuel n env Hfuel.
  - exists env. unfold WithAsyncPolling. simpl.
    rewrite (pollLoop_terminal _ _ _ _ _ _ Hterm).
    replace (n + 1)%nat with (S n) by lia. reflexivity.
  - destruct fuel as [| fuel]; [simpl in Hfuel; lia |].
    pose proof (no_cancel (GetPollingDelay resp defaultDelay) 1 (Cancel r) env) as Hd.
    destruct (DelayForBackoff (GetPollingDelay resp defaultDelay) 1 (Cancel r) env)
      as [derr env1] eqn:Hdelay.
    simpl in Hd. subst derr.
    destruct (IH fuel (S n) env1) as [env' Hrun]; [simpl in Hfuel; lia |].
    exists env'.
    transitivity (loop (S fuel) defaultDelay (counting replay) r (DoResp resp)
                    (((DoResp <$> longs) ++ res :: rest)%list, S n) env);
      [reflexivity |].
    rewrite (pollLoop_step_polled _ _ _ _ _ _ _ Hlong Hdelay), Hrun.
    replace (S n + S (List.length longs))%nat
      with (n + S (List.length (resp :: longs)))%nat by (simpl; lia).
    reflexivity.
Qed.

(** X15. Let the base sender answer with any number of long-running
    responses and then with a result at which polling stops (a response
    that is not long-running, or an error), and let no delay be cancelled.
    Then the polling sender returns that result, after one call of the base
    sender more than there were long-running responses, and leaves the rest
    of the answers unused.  The loop needs one iteration per long-running
    response. *)
Theorem WithAsyncPolling_polls_until_done longs res rest r fuel env :
  Forall (fun resp => ResponseIsLongRunning resp = true) longs →
  terminal res = true →
  (List.length longs ≤ fuel)%nat →
  ∃ env',
    polled fuel defaultDelay (counting replay) r
      ((DoResp <$> longs) ++ res :: rest, 0%nat)%list env
    = Some (res, (rest, S (List.length longs)), env').
Proof.
  intros Hlongs Hterm Hfuel.
  exact (replay_run longs res rest r Hlongs Hterm fuel 0%nat env Hfuel).
Qed.

Lemma pollLoop_forever {T : Type} (s : Sender T) r :
  (∀ st, ∃ resp st', s r st = (DoResp resp, st')
                     ∧ ResponseIsLongRunning resp = true) →
  ∀ fuel resp st env,
    ResponseIsLongRunning resp = true →
    loop fuel defaultDelay s r (DoResp resp) st env = None.
Proof.
  intros Hbusy. induction fuel as [| fuel IH]; intros resp st env Hlong; simpl;
    rewrite Hlong; [reflexivity |].
  pose proof (no_cancel (GetPollingDelay resp defaultDelay) 1 (Cancel r) env) as Hd.
  destruct (DelayForBackoff _ _ _ env) as [derr env1]. simpl in Hd. subst derr.
  destruct (Hbusy st) as (resp1 & st1 & -> & Hlong1). by apply IH.
Qed.

(** X16. The loop has no bound of its own: when every answer of the base
    sender is a long-running response and no delay is cancelled, the
    polling sender does not return, whatever the number of iterations it is
    given. *)
Theorem WithAsyncPolling_never_gives_up {T : Type} (s : Sender T) r :
  (∀ st, ∃ resp st', s r st = (DoResp resp, st')
                     ∧ ResponseIsLongRunning resp = true) →
  ∀ fuel st env, polled fuel defaultDelay s r st env = None.
Proof.
  intros Hbusy fuel st env. unfold WithAsyncPolling.
  destruct (Hbusy st) as (resp & st' & -> & Hlong). by apply pollLoop_forever.
Qed.

End NeverCancelled.

End Loop.

(** A sender whose every answer is the same response. *)
Definition always (resp : Response) : Sender unit := fun _ st => (DoResp resp, st).

Lemma WithAsyncPolling_first_terminal_witness :
  WithAsyncPolling defaultOnly neverCancelled 0 1000000000 (counting replay)
    emptyRequest ([DoFail None (errorString "connection refused")], 0%nat) tt
  = Some (DoFail None (errorString "connection refused"), ([], 1%nat), tt).
Proof.
  exact (WithAsyncPolling_first_terminal defaultOnly neverCancelled 1000000000 0
           replay emptyRequest (DoFail None (errorString "connection refused"))
           [DoFail None (errorString "connection refused")] [] tt eq_refl eq_refl).
Defined.

Definition cancelledAtOnce (_ _ : Z) (_ : option nat) (e : unit) : option error * unit :=
  (Some (errorString "cancelled"), e).

Lemma WithAsyncPolling_cancelled_witness :
  WithAsyncPolling defaultOnly cancelledAtOnce 1 1000000000 (counting scripted)
    emptyRequest ([sample.createdResponse; sample.okResponse], 0%nat) tt
  = Some (DoFail (Some sample.createdResponse) (errorString "cancelled"),
          ([sample.okResponse], 1%nat), tt).
Proof.
  exact (WithAsyncPolling_cancelled defaultOnly cancelledAtOnce 1000000000 0
           scripted emptyRequest sample.createdResponse
           [sample.createdResponse; sample.okResponse] [sample.okResponse]
           tt tt (errorString "cancelled") eq_refl eq_refl eq_refl).
Defined.

Lemma WithAsyncPolling_returns_done_witness :
  ResponseIsLongRunning sample.okResponse = false.
Proof.
  exact (WithAsyncPolling_returns_done defaultOnly neverCancelled 1000000000 2
           scripted emptyRequest
           [sample.createdResponse; sample.createdResponse; sample.okResponse] tt
           sample.okResponse [] tt eq_refl).
Defined.

Lemma WithAsyncPolling_polls_until_done_witness :
  ∃ env',
    WithAsyncPolling defaultOnly neverCancelled 3 1000000000 (counting replay)
      emptyRequest
      ((DoResp <$> [sample.createdResponse; sample.createdResponse;
                    sample.createdResponse])
         ++ DoFail None (errorString "connection reset") :: [DoResp sample.okResponse],
       0%nat)%list tt
    = Some (DoFail None (errorString "connection reset"),
            ([DoResp sample.okResponse], 4%nat), env').
Proof.
  apply (WithAsyncPolling_polls_until_done defaultOnly neverCancelled 1000000000
           (fun _ _ _ _ => eq_refl)
           [sample.createdResponse; sample.createdResponse; sample.createdResponse]
           (DoFail None (errorString "connection reset")) [DoResp sample.okResponse]
           emptyRequest 3 tt).
  - repeat constructor.
  - reflexivity.
  - simpl. lia.
Defined.

Lemma WithAsyncPolling_never_gives_up_witness :
  WithAsyncPolling defaultOnly neverCancelled 1000 1000000000
    (always sample.createdResponse) emptyRequest tt tt = None.
Proof.
  apply (WithAsyncPolling_never_gives_up defaultOnly neverCancelled 1000000000
           (fun _ _ _ _ => eq_refl) (always sample.createdResponse) emptyRequest).
  intros st. exists sample.createdResponse, st. split; reflexivity.
Defined.

End polling_more.

(** ** More on the poll request and the detector *)

Module poll_request_more.

Import http autorest azure poll_request.

Section WithStdlib.
Context `{GoStdlib}.



(** X18. The detector and the constructor agree on the header: for a
    response that [ResponseIsLongRunning] accepts, [NewAsyncPollingRequest]
    never reports a missing header; when the location is a URL it returns
    a GET request for the location that [GetAsyncOperation] gives. *)
Theorem NewAsyncPollingRequest_of_long_running resp c w :
  ResponseIsLongRunning resp = true →
  url_Parse_ok (GetAsyncOperation resp) = true →
  ∃ resp1 w1,
    NewAsyncPollingRequest resp c w
    = (Some (pollRequest (GetAsyncOperation resp)), None, resp1, w1).
Proof.
  intros Hlong Hok. unfold ResponseIsLongRunning in Hlong.
  apply andb_true_iff in Hlong as [_ Hne]. apply negb_true_iff in Hne.
  unfold NewAsyncPollingRequest. rewrite Hne, (Prepare_poll _ Hok).
  destruct (Respond resp [ByInspecting c; ByClosing] w) as [[resp1 w1] err1].
  by exists resp1, w1.
Qed.

End WithStdlib.

(** X19. [GetAsyncOperation] reads the first value stored under the
    canonical key [Azure-Asyncoperation] and nothing else: without a value
    there, or with an empty first value, the response is not long-running
    whatever its status, even if the header map holds a value under the
    name as the constant spells it. *)
Theorem GetAsyncOperation_canonical_key_only resp :
  (RespHeader resp !! "Azure-Asyncoperation" = None
   ∨ RespHeader resp !! "Azure-Asyncoperation" = Some []
   ∨ ∃ vs, RespHeader resp !! "Azure-Asyncoperation" = Some ("" :: vs)) →
  GetAsyncOperation resp = "" ∧ ResponseIsLongRunning resp = false.
Proof.
  intros Hcase.
  assert (GetAsyncOperation resp = "") as Hget.
  { rewrite detection.GetAsyncOperation_lookup.
    destruct Hcase as [-> | [-> | [vs ->]]]; reflexivity. }
  split; [exact Hget |]. unfold ResponseIsLongRunning. rewrite Hget.
  apply andb_false_r.
Qed.

#[local] Existing Instance sample.stdlib.

(** A 201 whose header map holds the poll location under the name as the
    constant spells it, which is not the canonical key. *)
Definition uncanonicalResponse : Response :=
  {| StatusCode := 201;
     RespHeader := {[ HeaderAsyncOperation := [sample.pollURL] ]};
     Body := 0 |}.

Lemma GetAsyncOperation_canonical_key_only_witness :
  GetAsyncOperation uncanonicalResponse = ""
  ∧ ResponseIsLongRunning uncanonicalResponse = false.
Proof.
  apply (GetAsyncOperation_canonical_key_only uncanonicalResponse).
  left. reflexivity.
Defined.



Lemma NewAsyncPollingRequest_of_long_running_witness :
  ∃ resp1 w1,
    NewAsyncPollingRequest sample.createdResponse defaultClient
      [NetBody sample.errorBody false]
    = (Some (pollRequest (GetAsyncOperation sample.createdResponse)), None, resp1, w1).
Proof.
  exact (NewAsyncPollingRequest_of_long_running sample.createdResponse defaultClient
           [NetBody sample.errorBody false] eq_refl eq_refl).
Defined.

End poll_request_more.
